(** * The prenova backend (src/server/api/app.py): handlers over a store,
      an identity provider, two classifiers and a remote chat model.

    The Flask handlers are embedded as functions in a small state-and-exception
    monad.  The external collaborators (identity provider, scalers and
    classifiers, the chat endpoint, the record store's failures and schema, and
    the parts of the Python runtime that are not re-implemented here) are the
    fields of an environment record [Env]; every theorem quantifies over it. *)

From Stdlib Require Import ZArith Ascii String List Bool Lia.
From stdpp Require Import base tactics option list strings pretty gmap.
Import ListNotations.
Local Open Scope string_scope.
Local Open Scope Z_scope.
Local Open Scope list_scope.

(** ** Python values *)

(** A Python float is an IEEE-754 double; the handlers never compute with one
    (only the scalers and classifiers do), so it is kept as its bit pattern. *)
Inductive float : Type :=
| Float64 (bits : Z).

Local Set Warnings "-register-all".

(** The values that [request.json], the store and the chat endpoint exchange:
    parsed JSON, where a number is an [int] or a [float] and an object is a
    [dict] with string keys, kept in insertion order with distinct keys. *)
Inductive pyval : Type :=
| PNone
| PBool (b : bool)
| PInt (z : Z)
| PFloat (x : float)
| PStr (s : string)
| PList (l : list pyval)
| PDict (d : list (string * pyval)).

Definition dict : Type := list (string * pyval).

(** A raised exception: its class name and [str(e)]. *)
Inductive exn : Type :=
| Exception (type : string) (msg : string).

Definition str_exn (e : exn) : string :=
  match e with Exception _ m => m end.

Definition float_eqb (x y : float) : bool :=
  match x, y with Float64 a, Float64 b => Z.eqb a b end.

Fixpoint pyval_eqb (a b : pyval) {struct a} : bool :=
  match a, b with
  | PNone, PNone => true
  | PBool x, PBool y => Bool.eqb x y
  | PInt x, PInt y => Z.eqb x y
  | PFloat x, PFloat y => float_eqb x y
  | PStr x, PStr y => String.eqb x y
  | PList x, PList y =>
      (fix go (l1 l2 : list pyval) {struct l1} : bool :=
         match l1, l2 with
         | [], [] => true
         | u :: l1', v :: l2' => pyval_eqb u v && go l1' l2'
         | _, _ => false
         end) x y
  | PDict x, PDict y =>
      (fix go (l1 l2 : list (string * pyval)) {struct l1} : bool :=
         match l1, l2 with
         | [], [] => true
         | (k, u) :: l1', (k', v) :: l2' =>
             String.eqb k k' && pyval_eqb u v && go l1' l2'
         | _, _ => false
         end) x y
  | _, _ => false
  end.

(** *** Dictionaries *)

(** [d.get(k)] *)
Fixpoint dict_get (k : string) (d : dict) : option pyval :=
  match d with
  | [] => None
  | (k', v) :: d' => if String.eqb k k' then Some v else dict_get k d'
  end.

(** [d[k] = v]: an existing key keeps its place, a new one goes last. *)
Fixpoint dict_set (k : string) (v : pyval) (d : dict) : dict :=
  match d with
  | [] => [(k, v)]
  | (k', v') :: d' =>
      if String.eqb k k' then (k, v) :: d' else (k', v') :: dict_set k v d'
  end.

(** [{**d, **new}] *)
Definition dict_update (d new : dict) : dict :=
  fold_left (fun acc kv => dict_set (fst kv) (snd kv) acc) new d.

(** A dict display [{k1: v1, ..., kn: vn}], entries evaluated left to right. *)
Definition dict_of (entries : list (string * pyval)) : dict :=
  dict_update [] entries.

(** *** Operations of the runtime that the handlers use *)

Definition quoted (k : string) : string := "'" +:+ k +:+ "'".

Definition type_name (v : pyval) : string :=
  match v with
  | PNone => "NoneType"
  | PBool _ => "bool"
  | PInt _ => "int"
  | PFloat _ => "float"
  | PStr _ => "str"
  | PList _ => "list"
  | PDict _ => "dict"
  end.

(** [v[k]] for a string key [k]. *)
Definition py_getitem (v : pyval) (k : string) : exn + pyval :=
  match v with
  | PDict d =>
      match dict_get k d with
      | Some x => inr x
      | None => inl (Exception "KeyError" (quoted k))
      end
  | PList _ =>
      inl (Exception "TypeError" "list indices must be integers or slices, not str")
  | PStr _ =>
      inl (Exception "TypeError" "string indices must be integers, not 'str'")
  | _ =>
      inl (Exception "TypeError"
             (quoted (type_name v) +:+ " object is not subscriptable"))
  end.

(** [v.get(k)] (a missing key gives [None]); only a dict has the method. *)
Definition py_get (v : pyval) (k : string) (default : pyval) : exn + pyval :=
  match v with
  | PDict d => inr (from_option id default (dict_get k d))
  | _ =>
      inl (Exception "AttributeError"
             (quoted (type_name v) +:+ " object has no attribute 'get'"))
  end.

(** [bool(v)] *)
Definition py_truthy (v : pyval) : bool :=
  match v with
  | PNone => false
  | PBool b => b
  | PInt z => negb (Z.eqb z 0)
  | PFloat (Float64 b) =>
      negb (Z.eqb b 0 || Z.eqb b 9223372036854775808)
  | PStr s => negb (String.eqb s "")
  | PList l => match l with [] => false | _ => true end
  | PDict d => match d with [] => false | _ => true end
  end.

Fixpoint is_substring (p s : string) : bool :=
  String.prefix p s
  || match s with
     | EmptyString => false
     | String _ s' => is_substring p s'
     end.

(** [k in v] for a string [k]. *)
Definition py_contains (k : string) (v : pyval) : exn + bool :=
  match v with
  | PDict d => inr (bool_decide (is_Some (dict_get k d)))
  | PList l => inr (existsb (pyval_eqb (PStr k)) l)
  | PStr s => inr (is_substring k s)
  | _ =>
      inl (Exception "TypeError"
             ("argument of type " +:+ quoted (type_name v) +:+ " is not iterable"))
  end.

(** [l.append(x)]; only a list has the method. *)
Definition py_append (v x : pyval) : exn + pyval :=
  match v with
  | PList l => inr (PList (l ++ [x]))
  | _ =>
      inl (Exception "AttributeError"
             (quoted (type_name v) +:+ " object has no attribute 'append'"))
  end.

(** [s.split(sep)] for a one-character separator. *)
Fixpoint split (sep : ascii) (s : string) : list string :=
  match s with
  | EmptyString => [EmptyString]
  | String c s' =>
      if Ascii.eqb c sep then EmptyString :: split sep s'
      else match split sep s' with
           | [] => [String c EmptyString]
           | w :: ws => String c w :: ws
           end
  end.

(** [l[i]] on a list of strings. *)
Definition index_str (l : list string) (i : nat) : exn + string :=
  match nth_error l i with
  | Some x => inr x
  | None => inl (Exception "IndexError" "list index out of range")
  end.

(** ** Requests, responses, the environment *)

(** The part of a Flask request the handlers read: the [Authorization] header
    ([request.headers.get] gives [None] when it is absent) and the result of
    [request.json] / [request.get_json()], which raises when the body or its
    content type is not JSON. *)
Record request : Type := Request {
  authorization : option string;
  json : exn + pyval;
}.

(** What a view function returns: a status and the JSON body ([jsonify] of
    a value, or a dict that Flask serialises the same way). *)
Record response : Type := Response {
  status : nat;
  body : pyval;
}.

(** [supabase.auth.get_user(token)] returns [None] or an object with a
    [user] attribute that is [None] or has an [id]. *)
Inductive user_response : Type :=
| NoUser
| UserResponse (user : option string).

(** One call of the store client, [supabase.table(t)...execute()]. *)
Inductive db_request : Type :=
| Select (table col : string) (val : string)
    (* .select().eq(col, val).order('created_at', desc=True).limit(1) *)
| Insert (table : string) (row : dict)
| Upsert (table : string) (row : dict).

(** A call that leaves the process. *)
Inductive call : Type :=
| CallGetUser (token : string)
| CallChat (payload : pyval)
| CallDb (r : db_request).

(** The external collaborators, as one request meets them. *)
Record Env : Type := {
  (* Python runtime and numpy, where not re-implemented above *)
  float_conv : pyval -> exn + float;   (* float(v), v not already a float *)
  np_conv : pyval -> exn + float;      (* element conversion of np.array(.., dtype=float) *)
  dict_conv : pyval -> exn + dict;     (* dict(v), v not a mapping *)
  str_conv : pyval -> string;          (* str(v), v a number or a container *)
  (* configuration *)
  OLLAMA_MODEL_ID : option string;
  (* identity provider *)
  get_user : string -> exn + user_response;
  (* serialized models: one sample in, one sample or label out *)
  maternal_scaler_transform : list float -> exn + list float;
  maternal_model_predict : list float -> exn + Z;
  scaler_transform : list float -> exn + list float;
  model_predict : list float -> exn + Z;
  (* remote chat endpoint: requests.post(..., json=payload) and response.json() *)
  requests_post : pyval -> exn + pyval;
  (* record store: the conflict column of a table's upsert, and failures *)
  primary_key : string -> string;
  execute_error : db_request -> option exn;
}.

(** ** The record store *)

(** The store is an external service reached through the supabase client;
    its tables are kept by name, and a table's rows in creation order.  The
    schema is not in the repository: the conflict column of a table is a
    field of [Env]. *)
Abbreviation database := (gmap string (list dict)).

Definition rows (db : database) (t : string) : list dict :=
  default [] (db !! t).

Definition col_is (col : string) (v : pyval) (row : dict) : bool :=
  match dict_get col row with
  | Some x => pyval_eqb x v
  | None => false
  end.

(** [.select().eq(col, val).order('created_at', desc=True).limit(1)]: of the
    rows whose column [col] is [val], the one created last (rows are kept in
    creation order), or no row. *)
Definition select_latest (rs : list dict) (col val : string) : list dict :=
  match last (List.filter (col_is col (PStr val)) rs) with
  | Some r => [r]
  | None => []
  end.

(** [.upsert(row)], that is INSERT ... ON CONFLICT (key) DO UPDATE: a stored
    row that agrees with the new one on the conflict column [key] takes the
    new row's columns and keeps its place; without such a row (or when the
    new row has no value for [key]) the new row is inserted. *)
Definition upsert_rows (key : string) (row : dict) (rs : list dict) : list dict :=
  match dict_get key row with
  | Some v =>
      if existsb (col_is key v) rs
      then map (fun r => if col_is key v r then dict_update r row else r) rs
      else rs ++ [row]
  | None => rs ++ [row]
  end.

(** The rows a write returns in [result.data]. *)
Definition upsert_data (key : string) (row : dict) (rs : list dict) : list dict :=
  match dict_get key row with
  | Some v =>
      match List.filter (col_is key v) rs with
      | [] => [row]
      | hit => map (fun r => dict_update r row) hit
      end
  | None => [row]
  end.

(** ** The monad of a handler: the store and the log of outside calls are
    threaded, an exception keeps the state reached when it was raised. *)

Record Sys : Type := {
  db : database;
  calls : list call;
}.

Definition M (A : Type) : Type := Sys -> (exn + A) * Sys.

Definition ret {A} (a : A) : M A := fun s => (inr a, s).

Definition raise {A} (e : exn) : M A := fun s => (inl e, s).

Definition bind {A B} (c : M A) (k : A -> M B) : M B :=
  fun s =>
    match c s with
    | (inr a, s') => k a s'
    | (inl e, s') => (inl e, s')
    end.

(** [try: c except Exception as e: h e] *)
Definition try_except {A} (c : M A) (h : exn -> M A) : M A :=
  fun s =>
    match c s with
    | (inr a, s') => (inr a, s')
    | (inl e, s') => h e s'
    end.

(** [try: x = c except Exception as e: return h e], then [k x]: the handler
    guards [c] alone and leaves the view function. *)
Definition try_then {A B} (c : M A) (h : exn -> M B) (k : A -> M B) : M B :=
  fun s =>
    match c s with
    | (inr a, s') => k a s'
    | (inl e, s') => h e s'
    end.

(** A pure step that may raise. *)
Definition lift {A} (r : exn + A) : M A := fun s => (r, s).

Definition logged (c : call) (s : Sys) : Sys :=
  {| db := db s; calls := calls s ++ [c] |}.

Notation "'let*' x := c 'in' k" := (bind c (fun x => k))
  (at level 10, x name, c at level 100, k at level 200).
Notation "'try*' x := c 'except' h 'in' k" := (try_then c h (fun x => k))
  (at level 10, x name, c at level 100, h at level 100, k at level 200).

(** [supabase.auth.get_user(token)] *)
Definition auth_get_user (env : Env) (token : string) : M user_response :=
  fun s => (get_user env token, logged (CallGetUser token) s).

(** [....execute()]: the request is sent; a failure changes nothing. *)
Definition execute (env : Env) (r : db_request) : M (list dict) :=
  fun s =>
    let s1 := logged (CallDb r) s in
    match execute_error env r with
    | Some e => (inl e, s1)
    | None =>
        match r with
        | Select t col val => (inr (select_latest (rows (db s) t) col val), s1)
        | Insert t row =>
            (inr [row],
             {| db := <[t := rows (db s) t ++ [row]]> (db s); calls := calls s1 |})
        | Upsert t row =>
            let key := primary_key env t in
            (inr (upsert_data key row (rows (db s) t)),
             {| db := <[t := upsert_rows key row (rows (db s) t)]> (db s);
                calls := calls s1 |})
        end
    end.

(** ** The handlers of app.py *)

Definition error_body (msg : string) : pyval := PDict [("error", PStr msg)].

(** [jsonify({"error": str(e)}), 500] *)
Definition error_500 (e : exn) : M response :=
  ret (Response 500 (error_body (str_exn e))).

(** [not auth_header or not auth_header.startswith('Bearer ')] *)
Definition no_valid_token (auth_header : option string) : bool :=
  match auth_header with
  | None => true
  | Some h => negb (String.prefix "Bearer " h)
  end.

(** [auth_header.split(' ')[1]] *)
Definition token_of (auth_header : option string) : exn + string :=
  index_str (split " "%char (default "" auth_header)) 1.

(** [user_data.user.id] *)
Definition user_id (user_data : user_response) : exn + string :=
  match user_data with
  | UserResponse (Some uid) => inr uid
  | UserResponse None =>
      inl (Exception "AttributeError" "'NoneType' object has no attribute 'id'")
  | NoUser =>
      inl (Exception "AttributeError" "'NoneType' object has no attribute 'user'")
  end.

(** [str(v)], as an f-string formats a value. *)
Definition py_str (env : Env) (v : pyval) : string :=
  match v with
  | PStr s => s
  | PNone => "None"
  | PBool true => "True"
  | PBool false => "False"
  | _ => str_conv env v
  end.

(** [float(v)] *)
Definition py_float (env : Env) (v : pyval) : exn + float :=
  match v with
  | PFloat x => inr x
  | _ => float_conv env v
  end.

(** [DotDict(v)]: a dict subclass, built by the dict constructor. *)
Definition DotDict (env : Env) (v : pyval) : exn + dict :=
  match v with
  | PDict d => inr d
  | _ => dict_conv env v
  end.

Definition model_id (env : Env) : pyval :=
  match OLLAMA_MODEL_ID env with
  | Some m => PStr m
  | None => PNone
  end.

(** [chat(model, messages)], lines 27-50: the except clause prints and
    re-raises. *)
Definition chat (env : Env) (model messages : pyval) : M dict :=
  try_except
    (let payload := PDict [("model", model); ("messages", messages)] in
     let* result := (fun s => (requests_post env payload, logged (CallChat payload) s)) in
     let* result_obj := lift (DotDict env result) in
     let* msg := lift (py_get result "message" (PDict [])) in
     let* message := lift (DotDict env msg) in
     ret (dict_set "message" (PDict message) result_obj))
    (fun e => raise e).

(** [response.message.content]: [DotDict.__getattr__] is [dict.get], and
    [chat] stored a [DotDict] under ["message"]. *)
Definition message_content (response : dict) : exn + pyval :=
  match dict_get "message" response with
  | Some (PDict m) => inr (default PNone (dict_get "content" m))
  | Some v =>
      inl (Exception "AttributeError"
             (quoted (type_name v) +:+ " object has no attribute 'content'"))
  | None =>
      inl (Exception "AttributeError" "'NoneType' object has no attribute 'content'")
  end.

(** [create_doctor_profile], lines 66-83. *)
Definition create_doctor_profile (env : Env) (req : request) : M response :=
  try_except
    (let* data := lift (json req) in
     let* name := lift (py_get data "name" PNone) in
     let* phone := lift (py_get data "phone" PNone) in
     let* specialty := lift (py_get data "specialty" PNone) in
     let* location := lift (py_get data "location" PNone) in
     let* profile_image_url := lift (py_get data "profile_image_url" PNone) in
     let doctor_data :=
       dict_of [("name", name); ("phone", phone); ("specialty", specialty);
                ("location", location); ("profile_image_url", profile_image_url)] in
     let* result := execute env (Upsert "doctors" doctor_data) in
     ret (Response 200
            (PDict [("message", PStr "Doctor profile created successfully");
                    ("data", PList (map PDict result))])))
    error_500.

Definition risk_mapping : list (Z * string) :=
  [(0, "Normal"); (1, "Suspect"); (2, "Pathological")].

Fixpoint lookup_label (m : list (Z * string)) (k : Z) : option string :=
  match m with
  | [] => None
  | (k', v) :: m' => if Z.eqb k k' then Some v else lookup_label m' k
  end.

(** [str(v)] of an int in a [KeyError]: the decimal numeral. *)
Definition key_error (k : Z) : exn :=
  Exception "KeyError" (pretty k).

(** [float(data[k])] *)
Definition float_field (env : Env) (data : pyval) (k : string) : M float :=
  let* v := lift (py_getitem data k) in
  lift (py_float env v).

(** [predict_maternal], lines 86-130. *)
Definition predict_maternal (env : Env) (req : request) : M response :=
  try_except
    (let auth_header := authorization req in
     if no_valid_token auth_header
     then ret (Response 401 (error_body "No valid token provided"))
     else
       let* token := lift (token_of auth_header) in
       let* user_data := auth_get_user env token in
       match user_data with
       | NoUser => ret (Response 401 (error_body "Invalid token"))
       | _ =>
           let* data := lift (json req) in
           let* age := float_field env data "age" in
           let* systolic_bp := float_field env data "systolic_bp" in
           let* diastolic_bp := float_field env data "diastolic_bp" in
           let* blood_glucose := float_field env data "blood_glucose" in
           let* body_temp := float_field env data "body_temp" in
           let* heart_rate := float_field env data "heart_rate" in
           let features :=
             [age; systolic_bp; diastolic_bp; blood_glucose; body_temp; heart_rate] in
           let* scaled_features := lift (maternal_scaler_transform env features) in
           let* prediction := lift (maternal_model_predict env scaled_features) in
           let* risk_level :=
             lift (match lookup_label risk_mapping prediction with
                   | Some l => inr l
                   | None => inl (key_error prediction)
                   end) in
           let* uid := lift (user_id user_data) in
           let* v_systolic_bp := lift (py_getitem data "systolic_bp") in
           let* v_diastolic_bp := lift (py_getitem data "diastolic_bp") in
           let* v_blood_glucose := lift (py_getitem data "blood_glucose") in
           let* v_body_temp := lift (py_getitem data "body_temp") in
           let* v_heart_rate := lift (py_getitem data "heart_rate") in
           let vital_data :=
             dict_of [("UID", PStr uid);
                      ("systolic_bp", v_systolic_bp);
                      ("diastolic_bp", v_diastolic_bp);
                      ("blood_glucose", v_blood_glucose);
                      ("body_temp", v_body_temp);
                      ("heart_rate", v_heart_rate);
                      ("prediction", PInt prediction)] in
           let* result := execute env (Insert "vitals" vital_data) in
           ret (Response 200 (PDict [("prediction", PStr risk_level)]))
       end)
    error_500.

(** A numpy array of floats: its shape and its elements in row-major order. *)
Record ndarray : Type := {
  shape : list nat;
  flat : list float;
}.

Definition shape_eqb (a b : list nat) : bool :=
  bool_decide (a = b).

(** The conversions of the elements of a list, in order; the first failure
    is raised. *)
Definition map_sum {A B} (f : A -> exn + B) : list A -> exn + list B :=
  fix go (l : list A) : exn + list B :=
    match l with
    | [] => inr []
    | x :: l' =>
        match f x with
        | inl e => inl e
        | inr b =>
            match go l' with
            | inl e => inl e
            | inr rest => inr (b :: rest)
            end
        end
    end.

(** [np.array(v, dtype=float)]: a list gives one more dimension, of the list's
    length, over elements of one common shape; a scalar gives a 0-d array. *)
Fixpoint np_array (env : Env) (v : pyval) {struct v} : exn + ndarray :=
  match v with
  | PList l =>
      match map_sum (np_array env) l with
      | inl e => inl e
      | inr [] => inr {| shape := [0%nat]; flat := [] |}
      | inr (a :: rest) =>
          if forallb (fun b => shape_eqb (shape b) (shape a)) rest
          then inr {| shape := length l :: shape a;
                      flat := concat (map flat (a :: rest)) |}
          else inl (Exception "ValueError"
                      "setting an array element with a sequence")
      end
  | PDict _ =>
      inl (Exception "TypeError"
             "float() argument must be a string or a real number, not 'dict'")
  | PFloat x => inr {| shape := []; flat := [x] |}
  | _ =>
      match np_conv env v with
      | inl e => inl e
      | inr x => inr {| shape := []; flat := [x] |}
      end
  end.

(** [a.shape[0]] *)
Definition shape0 (a : ndarray) : exn + nat :=
  match shape a with
  | n :: _ => inr n
  | [] => inl (Exception "IndexError" "tuple index out of range")
  end.

Definition expected_feature_length : nat := 15.

Definition health_status : list (Z * string) :=
  [(1, "Normal"); (2, "Suspect"); (3, "Pathological")].

Definition feature_names : list string :=
  ["baseline_value"; "accelerations"; "fetal_movement"; "uterine_contractions";
   "light_decelerations"; "severe_decelerations"; "prolonged_decelerations";
   "abnormal_short_term_variability"; "mean_value_of_short_term_variability";
   "percentage_of_time_with_abnormal_long_term_variability";
   "mean_value_of_long_term_variability";
   "histogram_width"; "histogram_min"; "histogram_max";
   "histogram_number_of_peaks"].

(** [zip(a, b)] stops at the shorter list. *)
Fixpoint zip {A B} (a : list A) (b : list B) : list (A * B) :=
  match a, b with
  | x :: a', y :: b' => (x, y) :: zip a' b'
  | _, _ => []
  end.

(** [predict_fetal], lines 132-207. *)
Definition predict_fetal (env : Env) (req : request) : M response :=
  try_except
    (let auth_header := authorization req in
     if no_valid_token auth_header
     then ret (Response 401 (error_body "No valid token provided"))
     else
       let* token := lift (token_of auth_header) in
       try* user_data := auth_get_user env token
       except (fun _ => ret (Response 401 (error_body "Failed to validate token"))) in
       match user_data with
       | NoUser | UserResponse None =>
           ret (Response 401 (error_body "Invalid token"))
       | UserResponse (Some uid) =>
           let* data := lift (json req) in
           let* missing :=
             if negb (py_truthy data) then ret true
             else let* present := lift (py_contains "features" data) in
                  ret (negb present) in
           if (missing : bool)
           then ret (Response 400 (error_body "Missing required feature data"))
           else
             let* raw := lift (py_getitem data "features") in
             let* features := lift (np_array env raw) in
             let* n := lift (shape0 features) in
             if negb (Nat.eqb n expected_feature_length)
             then ret (Response 400
                         (error_body ("Invalid feature length, expected "
                                      +:+ pretty expected_feature_length)))
             else
               try* scaled_features := lift (scaler_transform env (flat features))
               except (fun e =>
                 ret (Response 500
                        (error_body ("Feature scaling failed: " +:+ str_exn e)))) in
               try* prediction := lift (model_predict env scaled_features)
               except (fun e =>
                 ret (Response 500
                        (error_body ("Prediction failed: " +:+ str_exn e)))) in
               let prediction_result :=
                 default "Unknown" (lookup_label health_status prediction) in
               let feature_dict :=
                 dict_of (map (fun kv => (fst kv, PFloat (snd kv)))
                            (zip feature_names (flat features))) in
               let ctg_data :=
                 dict_set "prediction" (PInt prediction)
                   (dict_update (dict_of [("UID", PStr uid)]) feature_dict) in
               try* result := execute env (Insert "ctg" ctg_data)
               except (fun e =>
                 ret (Response 500
                        (error_body ("Database insert failed: " +:+ str_exn e)))) in
               ret (Response 200
                      (PDict [("prediction", PInt prediction);
                              ("status", PStr prediction_result)]))
       end)
    (fun e => ret (Response 500 (error_body ("Unexpected error: " +:+ str_exn e)))).

(** The f-string of line 225. *)
Definition diet_prompt (env : Env) (trimester weight health_conditions dietary_preference : pyval)
  : string :=
  "You are a professional dietician and nutritionist. You suggest excellent diet plans for pregnant women that look after their well being and growth. You will now suggest a diet plan for a "
  +:+ py_str env trimester
  +:+ " trimester pregnant woman weighing about "
  +:+ py_str env weight
  +:+ " kg, who is feeling "
  +:+ py_str env health_conditions
  +:+ " and has strict dietary preferences as follows: "
  +:+ py_str env dietary_preference
  +:+ ". Do not suggest any foods that can cause harm or go against the dietary preferences. Suggest both a vegetarian only and a non-vegetarian diet plan separately for her and just give the plan.".

Definition message (role : string) (content : pyval) : pyval :=
  PDict [("role", PStr role); ("content", content)].

(** [pregnancy_diet], lines 209-239.  [diet_data] is built and dropped. *)
Definition pregnancy_diet (env : Env) (req : request) : M response :=
  try_except
    (let* data := lift (json req) in
     let auth_header := authorization req in
     if no_valid_token auth_header
     then ret (Response 401 (error_body "No valid token provided"))
     else
       let* token := lift (token_of auth_header) in
       let* user_data := auth_get_user env token in
       match user_data with
       | NoUser => ret (Response 401 (error_body "Invalid token"))
       | _ =>
           let* trimester := lift (py_getitem data "trimester") in
           let* weight := lift (py_getitem data "weight") in
           let* health_conditions := lift (py_getitem data "health_conditions") in
           let* dietary_preference := lift (py_getitem data "dietary_preference") in
           let prompt :=
             diet_prompt env trimester weight health_conditions dietary_preference in
           let* response :=
             chat env (model_id env) (PList [message "user" (PStr prompt)]) in
           let* uid := lift (user_id user_data) in
           let* content := lift (message_content response) in
           let diet_data := dict_of [("UID", PStr uid); ("diet_plan", content)] in
           let* content' := lift (message_content response) in
           ret (Response 200 (PDict [("diet_plan", content')]))
       end)
    error_500.

(** [l[0]] on the rows of a result. *)
Definition first_row (data : list dict) : exn + pyval :=
  match data with
  | r :: _ => inr (PDict r)
  | [] => inl (Exception "IndexError" "list index out of range")
  end.

(** [chatbot_get], lines 241-256: the one handler without a try block; an
    exception leaves the view function. *)
Definition chatbot_get (env : Env) (req : request) : M response :=
  let auth_header := authorization req in
  if no_valid_token auth_header
  then ret (Response 401 (error_body "No valid token provided"))
  else
    let* token := lift (token_of auth_header) in
    let* user_data := auth_get_user env token in
    match user_data with
    | NoUser => ret (Response 401 (error_body "Invalid token"))
    | _ =>
        let* uid := lift (user_id user_data) in
        let* chat_data := execute env (Select "chats" "UID" uid) in
        let* row := lift (first_row chat_data) in
        let* chat_history := lift (py_getitem row "chat_history") in
        ret (Response 200 chat_history)
    end.

(** The message a new conversation starts with, line 280. *)
Definition seed_content : string :=
  "You are prenova, an AI assistant that is here to help you with the user's pregnancy journey. You will only provide information that is accurate and helpful to the user. You will not provide any medical advice or diagnosis. You will also not provide any information that is not related to pregnancy. You will be polite and respectful to the user at all times. You will be rewarded for providing accurate and helpful information and penalized for providing inaccurate or unhelpful information. You will be deactivated if you provide inaccurate or unhelpful information repeatedly.".

Definition seed_message : pyval := message "user" (PStr seed_content).

(** Lines 279-282: the conversation a turn starts from. *)
Definition initial_history (data : list dict) : exn + pyval :=
  match data with
  | [] => inr (PList [seed_message])
  | _ =>
      match first_row data with
      | inl e => inl e
      | inr row => py_getitem row "chat_history"
      end
  end.

(** [chatbot], lines 258-296. *)
Definition chatbot (env : Env) (req : request) : M response :=
  try_except
    (let* data := lift (json req) in
     let auth_header := authorization req in
     if no_valid_token auth_header
     then ret (Response 401 (error_body "No valid token provided"))
     else
       let* token := lift (token_of auth_header) in
       let* user_data := auth_get_user env token in
       match user_data with
       | NoUser => ret (Response 401 (error_body "Invalid token"))
       | _ =>
           let* uid := lift (user_id user_data) in
           let* chat_data := execute env (Select "chats" "UID" uid) in
           let* chat_history := lift (initial_history chat_data) in
           let* prompt := lift (py_getitem data "message") in
           let* chat_history := lift (py_append chat_history (message "user" prompt)) in
           let* response := chat env (model_id env) chat_history in
           let* content := lift (message_content response) in
           let* chat_history :=
             lift (py_append chat_history
                     (message "assistant" (PStr (py_str env content)))) in
           let* uid' := lift (user_id user_data) in
           let* result :=
             execute env
               (Upsert "chats"
                  (dict_of [("UID", PStr uid'); ("chat_history", chat_history)])) in
           let* content' := lift (message_content response) in
           ret (Response 200 (PDict [("response", content')]))
       end)
    error_500.

(** ** Sample collaborators, for concrete runs *)

(** [float(v)] on the ints that the sample requests hold (they are small
    enough to be exact); strings and other values are refused. *)
Definition sample_float (v : pyval) : exn + float :=
  match v with
  | PInt 25 => inr (Float64 4627730092099895296)
  | PInt 37 => inr (Float64 4630404104378646528)
  | PInt 75 => inr (Float64 4634978072750194688)
  | PInt 80 => inr (Float64 4635329916471083008)
  | PInt 120 => inr (Float64 4638144666238189568)
  | PInt 1 => inr (Float64 4607182418800017408)
  | PStr _ => inl (Exception "ValueError" "could not convert string to float")
  | _ => inl (Exception "TypeError" "float() argument must be a string or a real number")
  end.

Definition sample_get_user (token : string) : exn + user_response :=
  if String.eqb token "alice-token" then inr (UserResponse (Some "alice"))
  else inl (Exception "AuthApiError" "invalid JWT").

(** An environment whose classifiers answer [label], whose chat endpoint is
    [post], and whose store never fails; [chats] is keyed by user. *)
Definition sample_env (label : Z) (post : pyval -> exn + pyval) : Env := {|
  float_conv := sample_float;
  np_conv := sample_float;
  dict_conv := fun _ =>
    inl (Exception "TypeError" "cannot convert dictionary update sequence");
  str_conv := fun v => match v with PInt z => pretty z | _ => "" end;
  OLLAMA_MODEL_ID := Some "llama3";
  get_user := sample_get_user;
  maternal_scaler_transform := fun x => inr x;
  maternal_model_predict := fun _ => inr label;
  scaler_transform := fun x => inr x;
  model_predict := fun _ => inr label;
  requests_post := post;
  primary_key := fun t => if String.eqb t "chats" then "UID" else "id";
  execute_error := fun _ => None;
|}.

(** The chat endpoint answering every request with [text]. *)
Definition post_reply (text : string) (payload : pyval) : exn + pyval :=
  inr (PDict [("model", PStr "llama3");
              ("message", message "assistant" (PStr text));
              ("done", PBool true)]).

(** The chat endpoint answering with an error object, as it does for a model
    that is not installed: a JSON object without ["message"]. *)
Definition post_no_message (payload : pyval) : exn + pyval :=
  inr (PDict [("error", PStr "model 'llama3' not found")]).

(** The chat endpoint unreachable. *)
Definition post_down (payload : pyval) : exn + pyval :=
  inl (Exception "ConnectionError" "Connection refused").

Definition empty_sys : Sys := {| db := ∅; calls := [] |}.

Definition alice_header : option string := Some "Bearer alice-token".

Definition chat_request (text : string) : request :=
  Request alice_header (inr (PDict [("message", PStr text)])).

(** The body of the spec's example for [/predict_maternal]: 6.5 is the one
    float, the other numbers are ints. *)
Definition vitals_body : dict :=
  [("age", PInt 25); ("systolic_bp", PInt 120); ("diastolic_bp", PInt 80);
   ("blood_glucose", PFloat (Float64 4619004367821864960));
   ("body_temp", PInt 37); ("heart_rate", PInt 75)].

(** The same six values as floats: 25, 120, 80, 6.5, 37, 75. *)
Definition vitals_floats : list float :=
  [Float64 4627730092099895296; Float64 4638144666238189568;
   Float64 4635329916471083008; Float64 4619004367821864960;
   Float64 4630404104378646528; Float64 4634978072750194688].

Definition vitals_request : request :=
  Request alice_header (inr (PDict vitals_body)).

(** A [/predict_fetal] body with [n] features, all 1. *)
Definition fetal_request (n : nat) : request :=
  Request alice_header (inr (PDict [("features", PList (repeat (PInt 1) n))])).

(** A request whose body is not JSON: [request.json] raises. *)
Definition bad_json : exn + pyval :=
  inl (Exception "BadRequest"
         "400 Bad Request: Failed to decode JSON object").

(** ** Running several requests in sequence *)

(** Successive POSTs to [/chat], each meeting its own environment. *)
Fixpoint run_chatbot (turns : list (Env * request)) (s : Sys)
  : list (exn + response) * Sys :=
  match turns with
  | [] => ([], s)
  | (env, req) :: rest =>
      let '(out, s1) := chatbot env req s in
      let '(outs, s2) := run_chatbot rest s1 in
      (out :: outs, s2)
  end.

(** A handler's outcome is a 200 response. *)
Definition succeeded (out : exn + response) : Prop :=
  match out with
  | inr r => status r = 200%nat
  | inl _ => False
  end.

(** The request carries a bearer token that the identity provider resolves to
    the user [uid]. *)
Definition authenticated (env : Env) (req : request) (uid : string) : Prop :=
  no_valid_token (authorization req) = false /\
  exists token, token_of (authorization req) = inr token /\
                get_user env token = inr (UserResponse (Some uid)).

(** The roles of the messages of a history. *)
Definition role_of (m : pyval) : option pyval :=
  match m with
  | PDict d => dict_get "role" d
  | _ => None
  end.

Definition has_role (role : string) (m : pyval) : bool :=
  match role_of m with
  | Some r => pyval_eqb r (PStr role)
  | None => false
  end.

Definition count_role (role : string) (history : list pyval) : nat :=
  length (List.filter (has_role role) history).

(** The conversation stored for [uid]: what the handlers' select returns. *)
Definition stored_history (s : Sys) (uid : string) : option pyval :=
  match select_latest (rows (db s) "chats") "UID" uid with
  | r :: _ => dict_get "chat_history" r
  | [] => None
  end.

(** ** Vocabulary of the statements *)

(** The six fields of a [/predict_maternal] body, in the order read. *)
Definition maternal_fields : list string :=
  ["age"; "systolic_bp"; "diastolic_bp"; "blood_glucose"; "body_temp";
   "heart_rate"].

(** The body [d] holds a valid feature vector [xs] for the fields [ks]: every
    field is present and [float] converts it. *)
Definition valid_features (env : Env) (d : dict) (ks : list string)
    (xs : list float) : Prop :=
  Forall2 (fun k x => exists v, dict_get k d = Some v /\ py_float env v = inr x)
    ks xs.

(** The row agrees with the body on the fields [ks]. *)
Definition keeps_fields (ks : list string) (d row : dict) : Prop :=
  Forall (fun k => is_Some (dict_get k d) /\ dict_get k row = dict_get k d) ks.

(** The roles of [n] turns: user then assistant, [n] times. *)
Definition turn_roles (n : nat) : list (option pyval) :=
  concat (replicate n [Some (PStr "user"); Some (PStr "assistant")]).

(** The turns of one user, against a store whose [chats] table is keyed by
    the user or by a column the handler does not write (a generated id): any
    conflict column but the history itself. *)
Definition turns_of (uid : string) (turns : list (Env * request)) : Prop :=
  Forall (fun t => authenticated (fst t) (snd t) uid /\
                   primary_key (fst t) "chats" <> "chat_history") turns.

(** Two turns of the sample user. *)
Definition sample_turns : list (Env * request) :=
  [(sample_env 0 (post_reply "Hello"), chat_request "Hi");
   (sample_env 0 (post_reply "Fine"), chat_request "How")].

(** The conversation a turn of [uid] starts from in state [s]. *)
Definition conversation (s : Sys) (uid : string) : exn + pyval :=
  initial_history (select_latest (rows (db s) "chats") "UID" uid).

(** ** Further vocabulary and samples *)

(** The character [c] occurs in [s]. *)
Fixpoint has_char (c : ascii) (s : string) : bool :=
  match s with
  | EmptyString => false
  | String c' s' => Ascii.eqb c' c || has_char c s'
  end.

(** The fields that [create_doctor_profile] reads from the body. *)
Definition doctor_fields : list string :=
  ["name"; "phone"; "specialty"; "location"; "profile_image_url"].

(** The row that [create_doctor_profile] builds from a JSON object: the five
    fields, [None] for a field the body does not have. *)
Definition doctor_row (d : dict) : dict :=
  map (fun k => (k, default PNone (dict_get k d))) doctor_fields.

(** The keys of the row that [predict_maternal] inserts, in order. *)
Definition vitals_columns : list string :=
  ["UID"; "systolic_bp"; "diastolic_bp"; "blood_glucose"; "body_temp";
   "heart_rate"; "prediction"].

(** The array of one scalar. *)
Definition scalar (x : float) : ndarray := {| shape := []; flat := [x] |}.

(** The list [l] is a vector of numbers with values [xs]: numpy converts each
    element as a scalar. *)
Definition numeric_vector (env : Env) (l : list pyval) (xs : list float) : Prop :=
  Forall2 (fun v x => np_array env v = inr (scalar x)) l xs.

(** The row that [predict_fetal] stores for the user [uid], the feature values
    [xs] and the label id [label]. *)
Definition ctg_row (uid : string) (xs : list float) (label : Z) : dict :=
  ("UID", PStr uid)
  :: map (fun kv => (fst kv, PFloat (snd kv))) (zip feature_names xs)
  ++ [("prediction", PInt label)].

(** Two users: bob has a conversation, alice posts. *)
Definition bob_row : dict :=
  [("UID", PStr "bob"); ("chat_history", PList [seed_message])].

(** The store holding bob's conversation and nothing else. *)
Definition bob_sys : Sys :=
  {| db := {["chats" := [bob_row]]}; calls := [] |}.

(** A provider that knows the token but returns no user. *)
Definition no_user_env : Env := {|
  float_conv := sample_float;
  np_conv := sample_float;
  dict_conv := fun _ =>
    inl (Exception "TypeError" "cannot convert dictionary update sequence");
  str_conv := fun v => match v with PInt z => pretty z | _ => "" end;
  OLLAMA_MODEL_ID := Some "llama3";
  get_user := fun _ => inr (UserResponse None);
  maternal_scaler_transform := fun x => inr x;
  maternal_model_predict := fun _ => inr 0;
  scaler_transform := fun x => inr x;
  model_predict := fun _ => inr 1;
  requests_post := post_reply "Hello";
  primary_key := fun t => if String.eqb t "chats" then "UID" else "id";
  execute_error := fun _ => None;
|}.

(** ** Proof automation *)

Ltac run_monad :=
  unfold error_500, auth_get_user, float_field in *;
  unfold try_except, try_then, bind, ret, raise, lift in *.

Ltac split_cases :=
  repeat (simplify_eq/=; try case_match).

(** No call of the chat endpoint is in an explicit list of other calls. *)
Ltac solve_no_chat :=
  let p := fresh "p" in
  let Hp := fresh "Hp" in
  intros p Hp;
  repeat (apply elem_of_cons in Hp as [Hp|Hp]; [discriminate|]);
  by apply elem_of_nil in Hp.

(** The one call of the chat endpoint in an explicit list is the expected
    one. *)
Ltac solve_the_chat :=
  let p := fresh "p" in
  let Hp := fresh "Hp" in
  simpl; intros p Hp;
  repeat (apply elem_of_cons in Hp as [Hp|Hp]; [by simplify_eq|]);
  by apply elem_of_nil in Hp.

(** A branch of [chatbot] that returns before the chat call. *)
Ltac early_exit :=
  eexists _, _, _; split; [reflexivity|]; simpl;
  split; [first [symmetry; apply app_nil_r
                |rewrite <- ?app_assoc; reflexivity]|];
  left; simpl; repeat split; [solve_no_chat|done..].

(** Reduction that leaves the dictionaries and the array of [predict_fetal]
    folded. *)
Ltac fetal_step :=
  cbn -[dict_get dict_set dict_update dict_of np_array py_truthy py_contains
        shape0 zip lookup_label pretty String.append].

(** A branch that answers with an error envelope and writes nothing. *)
Ltac answered_error :=
  eexists _, _; (split; [reflexivity|]); simpl;
  right; split_and!; [auto|by eexists|done].

Ltac maternal_step := cbn -[py_getitem py_float lookup_label dict_of].

(** A branch of [pregnancy_diet] that answers an error before the chat
    call. *)
Ltac diet_exit :=
  eexists _, _, _; split; [reflexivity|]; simpl;
  split; [first [symmetry; apply app_nil_r
                |rewrite <- ?app_assoc; reflexivity]|];
  split_and!; [right; split; [auto|by eexists]|solve_no_chat|done].

Ltac step_any :=
  match goal with
  | |- context [match ?x with inl _ => _ | inr _ => _ end] => destruct x
  | |- context [match ?x with Some _ => _ | None => _ end] => destruct x
  end.

(** ** Facts about dictionaries, the log and the monad *)

Lemma dict_get_set_eq (k : string) (v : pyval) (d : dict) :
  dict_get k (dict_set k v d) = Some v.
Proof.
  induction d as [|[k' v'] d IH]; simpl.
  - by rewrite String.eqb_refl.
  - destruct (String.eqb k k') eqn:E; simpl; rewrite ?E; [|done].
    by rewrite String.eqb_refl.
Qed.

Lemma dict_get_set_ne (k k' : string) (v : pyval) (d : dict) :
  k <> k' -> dict_get k (dict_set k' v d) = dict_get k d.
Proof.
  intros Hne. induction d as [|[k0 v0] d IH]; simpl.
  - by apply String.eqb_neq in Hne as ->.
  - destruct (String.eqb k' k0) eqn:E; simpl.
    + apply String.eqb_eq in E as <-.
      by apply String.eqb_neq in Hne as ->.
    + by rewrite IH.
Qed.

(** A call found in a log that ends with a different call was there before
    that last call. *)
Lemma elem_of_snoc_ne (c c' : call) (l : list call) :
  c <> c' -> c ∈ l ++ [c'] -> c ∈ l.
Proof.
  intros Hne. rewrite elem_of_app, list_elem_of_singleton.
  by intros [?|?].
Qed.

Lemma authenticated_token (env : Env) (req : request) (uid : string) :
  authenticated env req uid ->
  exists token,
    no_valid_token (authorization req) = false /\
    token_of (authorization req) = inr token /\
    get_user env token = inr (UserResponse (Some uid)).
Proof. intros [Hb (token & Ht & Hu)]. eauto. Qed.

(** [chat] touches no table and makes exactly one call, to the chat
    endpoint. *)
Lemma chat_frame env model messages s out s' :
  chat env model messages s = (out, s') ->
  db s' = db s /\
  calls s' =
    calls s ++ [CallChat (PDict [("model", model); ("messages", messages)])].
Proof. unfold chat. run_monad. intros H. by split_cases. Qed.


(** What [chat] returns has a mapping under ["message"], so that
    [response.message.content] is defined. *)
Lemma chat_message env model messages s response s' :
  chat env model messages s = (inr response, s') ->
  exists content, message_content response = inr content.
Proof.
  unfold chat. run_monad. intros H. split_cases.
  unfold message_content. rewrite dict_get_set_eq. eauto.
Qed.

(** ** The sample collaborators *)

Lemma alice_authenticated (label : Z) (post : pyval -> exn + pyval)
    (b : exn + pyval) :
  authenticated (sample_env label post) (Request alice_header b) "alice".
Proof. split; [reflexivity|]. exists "alice-token". split; reflexivity. Defined.

Lemma sample_turns_of_alice : turns_of "alice" sample_turns.
Proof.
  repeat (constructor;
          [split; [apply alice_authenticated|discriminate]|]).
  constructor.
Defined.

Lemma sample_turns_succeed :
  Forall succeeded (fst (run_chatbot sample_turns empty_sys)).
Proof. vm_compute. repeat constructor. Defined.

(** ** POST /create_doctor_profile *)

(** C10: [create_doctor_profile] does not read the Authorization header.  Two
    requests with the same body and any two headers (present or absent) give
    the same response and the same final state; the response is 200 or 500,
    never 401; the identity provider is not called.  Whatever the header, a
    body that is a JSON object makes the handler send one upsert of the
    body's five fields to the [doctors] table, and when the store accepts it
    the answer is 200 and the table holds the row; a 200 response has always
    sent one upsert to [doctors] and applied it. *)
Theorem create_doctor_profile_ignores_authorization
    (env : Env) (h1 h2 : option string) (b : exn + pyval) (s : Sys) :
  create_doctor_profile env (Request h1 b) s
  = create_doctor_profile env (Request h2 b) s /\
  exists r s',
    create_doctor_profile env (Request h1 b) s = (inr r, s') /\
    (status r = 200%nat \/ status r = 500%nat) /\
    (forall token, CallGetUser token ∈ calls s' -> CallGetUser token ∈ calls s) /\
    (status r = 200%nat ->
     exists row,
       calls s' = calls s ++ [CallDb (Upsert "doctors" row)] /\
       db s' = <["doctors" := upsert_rows (primary_key env "doctors") row
                                (rows (db s) "doctors")]> (db s)) /\
    (forall d,
        b = inr (PDict d) ->
        calls s' = calls s ++ [CallDb (Upsert "doctors" (doctor_row d))] /\
        (execute_error env (Upsert "doctors" (doctor_row d)) = None ->
         status r = 200%nat /\
         db s' = <["doctors" := upsert_rows (primary_key env "doctors")
                                  (doctor_row d) (rows (db s) "doctors")]> (db s))).
Proof.
  split; [reflexivity|].
  destruct b as [e|v].
  { unfold create_doctor_profile. run_monad. simpl.
    eexists _, _. split; [reflexivity|]. simpl.
    split_and!; [auto|done|discriminate|discriminate]. }
  destruct v as [|b0|z|x|str|l|d0];
    try (unfold create_doctor_profile; run_monad; simpl;
         eexists _, _; (split; [reflexivity|]); simpl;
         split_and!; [auto|done|discriminate|discriminate]).
  unfold create_doctor_profile, execute. run_monad.
  cbn -[dict_get].
  destruct (execute_error env _) as [e|] eqn:Hstore;
    eexists _, _; (split; [reflexivity|]); simpl.
  - change (execute_error env (Upsert "doctors" (doctor_row d0)) = Some e)
      in Hstore.
    split_and!; [auto| |discriminate|].
    + intros token Hin. by apply elem_of_snoc_ne in Hin.
    + intros d Hd. simplify_eq. split; [done|]. intros Hnone.
      assert (Hboth : @None exn = Some e)
        by exact (eq_trans (eq_sym Hnone) Hstore).
      discriminate.
  - split_and!; [auto| | |].
    + intros token Hin. by apply elem_of_snoc_ne in Hin.
    + intros _. by eexists.
    + intros d Hd. by simplify_eq.
Qed.

(** ** POST /diet_plan *)


(** ** POST /chat *)

(** Every run of [chatbot] ends in a response.  Either the chat endpoint was
    never called, the response is not a 200 and no table changed; or the
    request got as far as the one chat call, made with the loaded history
    followed by the user turn, and then: a raised chat call gives a 500 and no
    change; a returned one gives the upsert of the history extended by the
    user turn and the assistant turn, which either fails (500, no change) or
    is applied (200). *)
Lemma chatbot_cases (env : Env) (req : request) (s : Sys) :
  exists r s' new,
    chatbot env req s = (inr r, s') /\
    calls s' = calls s ++ new /\
    (((forall p, CallChat p ∉ new) /\ status r <> 200%nat /\ db s' = db s)
     \/
     exists token uid data h prompt s0 out s1,
       no_valid_token (authorization req) = false /\
       token_of (authorization req) = inr token /\
       get_user env token = inr (UserResponse (Some uid)) /\
       json req = inr data /\
       conversation s uid = inr (PList h) /\
       py_getitem data "message" = inr prompt /\
       db s0 = db s /\
       chat env (model_id env) (PList (h ++ [message "user" prompt])) s0
       = (out, s1) /\
       (forall p, CallChat p ∈ new ->
                  p = PDict [("model", model_id env);
                             ("messages", PList (h ++ [message "user" prompt]))]) /\
       match out with
       | inl e => r = Response 500 (error_body (str_exn e)) /\ db s' = db s
       | inr response =>
           exists content,
             message_content response = inr content /\
             let row :=
               dict_of [("UID", PStr uid);
                        ("chat_history",
                         PList ((h ++ [message "user" prompt])
                                ++ [message "assistant" (PStr (py_str env content))]))] in
             match execute_error env (Upsert "chats" row) with
             | Some e => r = Response 500 (error_body (str_exn e)) /\ db s' = db s
             | None =>
                 r = Response 200 (PDict [("response", content)]) /\
                 db s' = <["chats" := upsert_rows (primary_key env "chats") row
                                        (rows (db s) "chats")]> (db s)
             end
       end).
Proof.
  unfold conversation, chatbot, execute. run_monad.
  destruct (json req) as [e|data] eqn:Hjson; simpl; [early_exit|].
  destruct (no_valid_token (authorization req)) eqn:Hbearer; simpl; [early_exit|].
  destruct (token_of (authorization req)) as [e|token] eqn:Htoken; simpl;
    [early_exit|].
  destruct (get_user env token) as [e|[|[uid|]]] eqn:Huser; simpl;
    [early_exit|early_exit| |early_exit].
  destruct (execute_error env (Select "chats" "UID" uid)) as [e|] eqn:Hsel;
    simpl; [early_exit|].
  destruct (initial_history _) as [e|history] eqn:Hhistory; simpl; [early_exit|].
  destruct (py_getitem data "message") as [e|prompt] eqn:Hprompt; simpl;
    [early_exit|].
  destruct history as [| | | | |h|]; simpl; [early_exit..| |early_exit].
  match goal with
  | |- context [chat env ?m ?msgs ?s] =>
      set (s0 := s); destruct (chat env m msgs s0) as [out s1] eqn:Hchat
  end.
  pose proof (chat_frame _ _ _ _ _ _ Hchat) as [Hdb Hcalls]. simpl in Hdb, Hcalls.
  destruct out as [e|response].
  { eexists _, _, _. split; [reflexivity|]. simpl.
    split; [rewrite Hcalls, <- !app_assoc; reflexivity|].
    right. exists token, uid, data, h, prompt, s0, (inl e), s1.
    split_and!; try done; solve_the_chat. }
  destruct (chat_message _ _ _ _ _ _ Hchat) as [content Hcontent].
  rewrite Hcontent. simpl.
  destruct (execute_error env (Upsert _ _)) as [e|] eqn:Hupsert; simpl.
  - eexists _, _, _. split; [reflexivity|]. simpl.
    split; [rewrite Hcalls, <- !app_assoc; reflexivity|].
    right. exists token, uid, data, h, prompt, s0, (inr response), s1.
    split_and!; try done; [solve_the_chat|].
    exists content. split; [done|]. simpl. by rewrite Hupsert.
  - eexists _, _, _. split; [reflexivity|]. simpl.
    split; [rewrite Hcalls, <- !app_assoc; reflexivity|].
    right. exists token, uid, data, h, prompt, s0, (inr response), s1.
    split_and!; try done; [solve_the_chat|].
    exists content. split; [done|]. simpl. rewrite Hupsert.
    by rewrite Hdb.
Qed.

(** *** The conversation kept in the store *)

Lemma rows_insert (d : database) (t : string) (rs : list dict) :
  rows (<[t := rs]> d) t = rs.
Proof. unfold rows. by rewrite lookup_insert_eq. Qed.

Lemma filter_replaced {A} (f : A -> bool) (g : A -> A) (l : list A) :
  (forall x, f x = true -> f (g x) = true) ->
  List.filter f (map (fun x => if f x then g x else x) l)
  = map g (List.filter f l).
Proof.
  intros Hg. induction l as [|x l IH]; simpl; [done|].
  destruct (f x) eqn:E; simpl.
  - by rewrite Hg, IH.
  - by rewrite E.
Qed.

Lemma filter_none {A} (f : A -> bool) (l : list A) :
  existsb f l = false -> List.filter f l = [].
Proof.
  induction l as [|x l IH]; simpl; [done|].
  destruct (f x); simpl; [done|auto].
Qed.

Lemma filter_some {A} (f : A -> bool) (l : list A) :
  existsb f l = true -> exists x, last (List.filter f l) = Some x.
Proof.
  intros H. destruct (List.filter f l) as [|y l'] eqn:E.
  - apply existsb_exists in H as (x & Hin & Hx).
    assert (In x (List.filter f l)) as Hf by (apply filter_In; auto).
    rewrite E in Hf. destruct Hf.
  - destruct (last (y :: l')) eqn:El; [eauto|].
    by apply last_None in El.
Qed.

Lemma last_map {A B} (g : A -> B) (l : list A) :
  last (map g l) = option_map g (last l).
Proof.
  induction l as [|x [|y l] IH]; simpl in *; [done..|].
  by rewrite IH.
Qed.

(** After the upsert of a user's conversation, the select of the handlers
    returns a row holding that conversation: the row of that user when the
    table is keyed by user, the row just inserted when it is keyed by a
    column the handler does not write. *)
Lemma select_latest_upsert (key uid : string) (history : pyval) (rs : list dict) :
  key <> "chat_history" ->
  exists r,
    select_latest
      (upsert_rows key
         (dict_of [("UID", PStr uid); ("chat_history", history)]) rs)
      "UID" uid = [r] /\
    dict_get "chat_history" r = Some history.
Proof.
  intros Hkey.
  assert (Hmine : col_is "UID" (PStr uid)
                    (dict_of [("UID", PStr uid); ("chat_history", history)])
                  = true).
  { unfold col_is. simpl. apply String.eqb_refl. }
  assert (Hnew : forall rs',
             select_latest
               (rs' ++ [dict_of [("UID", PStr uid); ("chat_history", history)]])
               "UID" uid
             = [dict_of [("UID", PStr uid); ("chat_history", history)]]).
  { intros rs'. unfold select_latest.
    rewrite List.filter_app. cbn [List.filter]. rewrite Hmine.
    by rewrite last_snoc. }
  destruct (String.eqb_spec key "UID") as [->|Hne].
  - unfold upsert_rows. simpl.
    destruct (existsb (col_is "UID" (PStr uid)) rs) eqn:Hhit.
    + unfold select_latest. rewrite filter_replaced.
      * destruct (filter_some _ _ Hhit) as [x Hx].
        rewrite last_map, Hx. simpl. eexists. split; [reflexivity|].
        unfold dict_update. simpl. apply dict_get_set_eq.
      * intros x _. unfold col_is, dict_update. simpl.
        rewrite dict_get_set_ne, dict_get_set_eq by done.
        simpl. apply String.eqb_refl.
    + rewrite Hnew. eexists. split; reflexivity.
  - unfold upsert_rows.
    assert (dict_get key (dict_of [("UID", PStr uid); ("chat_history", history)])
            = None) as ->.
    { simpl. apply String.eqb_neq in Hne as ->.
      by apply String.eqb_neq in Hkey as ->. }
    rewrite Hnew. eexists. split; reflexivity.
Qed.

(** One successful turn of [uid] extends the conversation it started from by a
    user message and an assistant message, and stores the result. *)
Lemma chatbot_turn (env : Env) (req : request) (uid : string) (s : Sys)
    (h : list pyval) (r : response) (s' : Sys) :
  authenticated env req uid ->
  primary_key env "chats" <> "chat_history" ->
  conversation s uid = inr (PList h) ->
  chatbot env req s = (inr r, s') ->
  status r = 200%nat ->
  exists prompt content,
    let h' := h ++ [message "user" prompt; message "assistant" (PStr content)] in
    stored_history s' uid = Some (PList h') /\
    conversation s' uid = inr (PList h').
Proof.
  intros [_ (token & Htoken & Huser)] Hkey Hconv Hrun Hok.
  destruct (chatbot_cases env req s) as (r0 & s0' & new & Hrun0 & _ & Hcases).
  rewrite Hrun in Hrun0. simplify_eq.
  destruct Hcases as [(_ & Hne & _)|Hcases]; [done|].
  destruct Hcases as (token0 & uid0 & data & h0 & prompt & s0 & out & s1 &
                      _ & Htoken0 & Huser0 & _ & Hconv0 & _ & _ & _ & _ & Hout).
  rewrite Htoken in Htoken0. simplify_eq.
  rewrite Huser in Huser0. simplify_eq.
  rewrite Hconv in Hconv0. simplify_eq.
  destruct out as [e|response]; [by destruct Hout as [-> _]|].
  destruct Hout as (content & _ & Hout). simpl in Hout.
  destruct (execute_error env _) as [e|]; [by destruct Hout as [-> _]|].
  destruct Hout as [_ Hdb].
  exists prompt, (py_str env content). simpl.
  unfold conversation, stored_history. rewrite Hdb, rows_insert.
  rewrite <- app_assoc. simpl.
  destruct (select_latest_upsert (primary_key env "chats") uid0
              (PList (h0 ++ [message "user" prompt;
                             message "assistant" (PStr (py_str env content))]))
              (rows (db s) "chats") Hkey) as (row & -> & Hrow).
  simpl. by rewrite Hrow.
Qed.

(** Successful turns of one user, from a conversation [h]: every turn adds a
    user message and an assistant message. *)
Lemma run_chatbot_history (uid : string) (turns : list (Env * request)) :
  forall (s : Sys) (h : list pyval) (outs : list (exn + response)) (s' : Sys),
    conversation s uid = inr (PList h) ->
    turns_of uid turns ->
    run_chatbot turns s = (outs, s') ->
    Forall succeeded outs ->
    exists added,
      conversation s' uid = inr (PList (h ++ added)) /\
      (turns <> [] -> stored_history s' uid = Some (PList (h ++ added))) /\
      map role_of added = turn_roles (length turns).
Proof.
  induction turns as [|[env req] turns IH]; intros s h outs s' Hconv Hturns Hrun Hok.
  - simpl in Hrun. simplify_eq. exists []. rewrite app_nil_r. by split_and!.
  - simpl in Hrun.
    destruct (chatbot env req s) as [out s1] eqn:Hstep.
    destruct (run_chatbot turns s1) as [outs1 s2] eqn:Hrest.
    simplify_eq.
    apply Forall_cons in Hok as [Hout Hok].
    apply Forall_cons in Hturns as [[Hauth Hkey] Hturns]. simpl in Hauth, Hkey.
    destruct out as [e|r]; [done|]. simpl in Hout.
    destruct (chatbot_turn _ _ _ _ _ _ _ Hauth Hkey Hconv Hstep Hout)
      as (prompt & content & Hstored & Hconv1).
    simpl in Hstored, Hconv1.
    destruct (IH _ _ _ _ Hconv1 Hturns Hrest Hok) as (added & Hconv2 & Hstored2 & Hroles).
    exists ([message "user" prompt; message "assistant" (PStr content)] ++ added).
    rewrite app_assoc. split_and!; [done| |by simpl; rewrite Hroles].
    intros _. destruct turns as [|t turns'].
    + simpl in Hrest. simplify_eq. simpl in Hroles.
      destruct added; [|done]. by rewrite app_nil_r.
    + by apply Hstored2.
Qed.

Lemma turn_roles_length (n : nat) : length (turn_roles n) = (2 * n)%nat.
Proof.
  unfold turn_roles. induction n as [|n IH]; simpl; [done|].
  simpl in IH. rewrite IH. lia.
Qed.

Lemma turn_roles_no_system (n : nat) :
  forall l, map role_of l = turn_roles n -> count_role "system" l = 0%nat.
Proof.
  unfold count_role.
  induction n as [|n IH]; intros l Hl.
  - by destruct l.
  - destruct l as [|m1 [|m2 l]]; [done..|].
    simpl in Hl. injection Hl as Hm1 Hm2 Hl.
    simpl. unfold has_role at 1. rewrite Hm1. simpl.
    unfold has_role at 1. rewrite Hm2. simpl. by apply IH.
Qed.



(** The run behind the counterexample, in full. *)
Example chat_reply_without_message_run :
  exists s',
    chatbot (sample_env 0 post_no_message) (chat_request "Hi") empty_sys
    = (inr (Response 200 (PDict [("response", PNone)])), s') /\
    stored_history empty_sys "alice" = None /\
    stored_history s' "alice"
    = Some (PList [seed_message; message "user" (PStr "Hi");
                   message "assistant" (PStr "None")]).
Proof. eexists. split; [vm_compute; reflexivity|]. by vm_compute. Qed.

(** C4: after [N] successful POSTs to [/chat] by one authenticated user who
    had no stored conversation, the conversation is the seed message followed
    by [2 N] messages whose roles alternate user, assistant; from the first
    POST on this is the history held in the store. *)
Theorem chat_history_after_posts (uid : string) (turns : list (Env * request))
    (s : Sys) (outs : list (exn + response)) (s' : Sys) :
  select_latest (rows (db s) "chats") "UID" uid = [] ->
  turns_of uid turns ->
  run_chatbot turns s = (outs, s') ->
  Forall succeeded outs ->
  exists rest,
    conversation s' uid = inr (PList (seed_message :: rest)) /\
    (turns <> [] ->
     stored_history s' uid = Some (PList (seed_message :: rest))) /\
    length (seed_message :: rest) = (1 + 2 * length turns)%nat /\
    map role_of rest = turn_roles (length turns).
Proof.
  intros Hnone Hturns Hrun Hok.
  assert (Hconv : conversation s uid = inr (PList [seed_message])).
  { unfold conversation. by rewrite Hnone. }
  destruct (run_chatbot_history uid turns s _ outs s' Hconv Hturns Hrun Hok)
    as (rest & Hconv' & Hstored & Hroles).
  exists rest. split_and!; [done..| |done].
  simpl. f_equal. rewrite <- (length_map role_of), Hroles.
  apply turn_roles_length.
Qed.

(** The hypotheses of C4 hold of two turns of the sample user, and so does
    its conclusion. *)
Lemma chat_history_after_posts_witness :
  select_latest (rows (db empty_sys) "chats") "UID" "alice" = [] /\
  turns_of "alice" sample_turns /\
  Forall succeeded (fst (run_chatbot sample_turns empty_sys)) /\
  exists rest,
    conversation (snd (run_chatbot sample_turns empty_sys)) "alice"
    = inr (PList (seed_message :: rest)) /\
    (sample_turns <> [] ->
     stored_history (snd (run_chatbot sample_turns empty_sys)) "alice"
     = Some (PList (seed_message :: rest))) /\
    length (seed_message :: rest) = (1 + 2 * length sample_turns)%nat /\
    map role_of rest = turn_roles (length sample_turns).
Proof.
  split; [reflexivity|].
  split; [exact sample_turns_of_alice|]. split; [exact sample_turns_succeed|].
  apply (chat_history_after_posts "alice" sample_turns empty_sys
           (fst (run_chatbot sample_turns empty_sys))).
  - reflexivity.
  - exact sample_turns_of_alice.
  - apply surjective_pairing.
  - exact sample_turns_succeed.
Defined.

(** C2 (as amended): for a user with no stored conversation, the conversation
    a chat turn starts from is freshly seeded with exactly one message, the
    fixed preamble, whose role is "user"; after any number of successful
    turns the roles are that leading "user" followed by user, assistant in
    alternation, and no message has the role "system". *)
Theorem seeded_conversation_roles (uid : string) (turns : list (Env * request))
    (s : Sys) (outs : list (exn + response)) (s' : Sys) :
  select_latest (rows (db s) "chats") "UID" uid = [] ->
  turns_of uid turns ->
  run_chatbot turns s = (outs, s') ->
  Forall succeeded outs ->
  conversation s uid = inr (PList [message "user" (PStr seed_content)]) /\
  exists rest,
    conversation s' uid
    = inr (PList (message "user" (PStr seed_content) :: rest)) /\
    map role_of rest = turn_roles (length turns) /\
    count_role "system" (message "user" (PStr seed_content) :: rest) = 0%nat.
Proof.
  intros Hnone Hturns Hrun Hok.
  assert (Hconv : conversation s uid = inr (PList [seed_message])).
  { unfold conversation. by rewrite Hnone. }
  split; [done|].
  destruct (run_chatbot_history uid turns s _ outs s' Hconv Hturns Hrun Hok)
    as (rest & Hconv' & _ & Hroles).
  exists rest. split_and!; [done..|].
  by apply turn_roles_no_system in Hroles.
Qed.

(** The amended C2 at two turns of the sample user. *)
Lemma seeded_conversation_roles_witness :
  conversation empty_sys "alice"
  = inr (PList [message "user" (PStr seed_content)]) /\
  exists rest,
    conversation (snd (run_chatbot sample_turns empty_sys)) "alice"
    = inr (PList (message "user" (PStr seed_content) :: rest)) /\
    map role_of rest = turn_roles (length sample_turns) /\
    count_role "system" (message "user" (PStr seed_content) :: rest) = 0%nat.
Proof.
  apply (seeded_conversation_roles "alice" sample_turns empty_sys
           (fst (run_chatbot sample_turns empty_sys))).
  - reflexivity.
  - exact sample_turns_of_alice.
  - apply surjective_pairing.
  - exact sample_turns_succeed.
Defined.

(** C2, as stated, fails: the seeded conversation has no message whose role
    is "system". *)
Lemma seed_has_no_system_message :
  ~ (exists h, initial_history [] = inr (PList h) /\
               count_role "system" h = 1%nat).
Proof.
  intros (h & Hh & Hcount). simpl in Hh.
  injection Hh as <-. vm_compute in Hcount. discriminate.
Qed.


(** ** POST /predict_maternal *)

(** C5 (as amended): for every valid 6-element feature vector sent to
    [/predict_maternal] by an authenticated user, when the scaler and the
    classifier answer with a label id in 0..2 and the store accepts the
    insert, the response is 200 with the name that [risk_mapping] gives the
    label id (Normal, Suspect or Pathological), and exactly one row is
    appended to [vitals] by one insert: the user id, the five vitals of the
    body as sent (systolic_bp, diastolic_bp, blood_glucose, body_temp,
    heart_rate) and the label id.  The row has no [age]. *)
Theorem predict_maternal_persists (env : Env) (req : request) (s : Sys)
    (uid : string) (d : dict) (xs scaled : list float) (label : Z) :
  authenticated env req uid ->
  json req = inr (PDict d) ->
  valid_features env d maternal_fields xs ->
  maternal_scaler_transform env xs = inr scaled ->
  maternal_model_predict env scaled = inr label ->
  0 <= label <= 2 ->
  (forall row, execute_error env (Insert "vitals" row) = None) ->
  exists name row token s',
    predict_maternal env req s
    = (inr (Response 200 (PDict [("prediction", PStr name)])), s') /\
    lookup_label risk_mapping label = Some name /\
    name ∈ ["Normal"; "Suspect"; "Pathological"] /\
    db s' = <["vitals" := rows (db s) "vitals" ++ [row]]> (db s) /\
    calls s' = calls s ++ [CallGetUser token; CallDb (Insert "vitals" row)] /\
    map fst row = ["UID"; "systolic_bp"; "diastolic_bp"; "blood_glucose";
                   "body_temp"; "heart_rate"; "prediction"] /\
    dict_get "UID" row = Some (PStr uid) /\
    keeps_fields (tail maternal_fields) d row /\
    dict_get "prediction" row = Some (PInt label) /\
    dict_get "age" row = None.
Proof.
  intros Hauth Hjson Hvalid Hscale Hpredict Hlabel Hstore.
  destruct (authenticated_token _ _ _ Hauth) as (token & Hbearer & Htoken & Huser).
  unfold valid_features, maternal_fields in Hvalid.
  apply Forall2_cons_inv_l in Hvalid as (x1 & ? & (v1 & Hv1 & Hx1) & Hvalid & ->).
  apply Forall2_cons_inv_l in Hvalid as (x2 & ? & (v2 & Hv2 & Hx2) & Hvalid & ->).
  apply Forall2_cons_inv_l in Hvalid as (x3 & ? & (v3 & Hv3 & Hx3) & Hvalid & ->).
  apply Forall2_cons_inv_l in Hvalid as (x4 & ? & (v4 & Hv4 & Hx4) & Hvalid & ->).
  apply Forall2_cons_inv_l in Hvalid as (x5 & ? & (v5 & Hv5 & Hx5) & Hvalid & ->).
  apply Forall2_cons_inv_l in Hvalid as (x6 & ? & (v6 & Hv6 & Hx6) & Hvalid & ->).
  apply Forall2_nil_inv_l in Hvalid as ->.
  assert (label = 0 \/ label = 1 \/ label = 2) as Hcases by lia.
  unfold predict_maternal, execute, py_getitem. run_monad.
  rewrite Hbearer, Htoken. simpl. rewrite Huser, Hjson. simpl.
  rewrite Hv1, Hx1, Hv2, Hx2, Hv3, Hx3, Hv4, Hx4, Hv5, Hx5, Hv6, Hx6.
  rewrite Hscale, Hpredict.
  destruct Hcases as [->|[->| ->]]; simpl; rewrite Hstore;
    eexists _, _, token, _; (split; [reflexivity|]); simpl;
    (split_and!; try done;
     [apply list_elem_of_In; simpl; auto
     |by rewrite <- app_assoc
     |unfold keeps_fields; simpl;
      repeat (apply Forall_cons; split; [|]); try apply Forall_nil;
      rewrite ?Hv2, ?Hv3, ?Hv4, ?Hv5, ?Hv6; by eauto]).
Qed.

(** The amended C5 at the spec's example request. *)
Lemma predict_maternal_persists_witness :
  authenticated (sample_env 0 post_down) vitals_request "alice" /\
  valid_features (sample_env 0 post_down) vitals_body maternal_fields vitals_floats /\
  exists name row token s',
    predict_maternal (sample_env 0 post_down) vitals_request empty_sys
    = (inr (Response 200 (PDict [("prediction", PStr name)])), s') /\
    lookup_label risk_mapping 0 = Some name /\
    name ∈ ["Normal"; "Suspect"; "Pathological"] /\
    db s' = <["vitals" := rows (db empty_sys) "vitals" ++ [row]]> (db empty_sys) /\
    calls s' = calls empty_sys ++ [CallGetUser token; CallDb (Insert "vitals" row)] /\
    map fst row = ["UID"; "systolic_bp"; "diastolic_bp"; "blood_glucose";
                   "body_temp"; "heart_rate"; "prediction"] /\
    dict_get "UID" row = Some (PStr "alice") /\
    keeps_fields (tail maternal_fields) vitals_body row /\
    dict_get "prediction" row = Some (PInt 0) /\
    dict_get "age" row = None.
Proof.
  assert (Hauth : authenticated (sample_env 0 post_down) vitals_request "alice").
  { split; [reflexivity|]. exists "alice-token". split; reflexivity. }
  assert (Hvalid : valid_features (sample_env 0 post_down) vitals_body
                     maternal_fields vitals_floats).
  { repeat (constructor; [eexists; split; reflexivity|]). constructor. }
  split; [exact Hauth|]. split; [exact Hvalid|].
  apply (predict_maternal_persists (sample_env 0 post_down) vitals_request
           empty_sys "alice" vitals_body vitals_floats vitals_floats 0);
    [exact Hauth|reflexivity|exact Hvalid|reflexivity|reflexivity|lia|reflexivity].
Defined.

(** C5, as stated, fails on the record: the row stored for the spec's own
    example does not hold all six input features, [age] is left out. *)
Lemma vitals_record_omits_age :
  ~ (forall r s',
        predict_maternal (sample_env 0 post_down) vitals_request empty_sys
        = (inr r, s') ->
        exists row,
          rows (db s') "vitals" = [row] /\
          keeps_fields maternal_fields vitals_body row).
Proof.
  intros Hclaim.
  edestruct Hclaim as (row & Hrows & Hkeeps); [vm_compute; reflexivity|].
  vm_compute in Hrows. injection Hrows as <-.
  apply Forall_cons in Hkeeps as [[_ Hage] _].
  vm_compute in Hage. discriminate.
Qed.

(** The run behind the counterexample, in full. *)
Example vitals_record_run :
  exists s',
    predict_maternal (sample_env 0 post_down) vitals_request empty_sys
    = (inr (Response 200 (PDict [("prediction", PStr "Normal")])), s') /\
    rows (db s') "vitals"
    = [[("UID", PStr "alice"); ("systolic_bp", PInt 120);
        ("diastolic_bp", PInt 80);
        ("blood_glucose", PFloat (Float64 4619004367821864960));
        ("body_temp", PInt 37); ("heart_rate", PInt 75);
        ("prediction", PInt 0)]].
Proof. eexists. split; [vm_compute; reflexivity|]. by vm_compute. Qed.

(** ** POST /predict_fetal *)

Lemma map_sum_length {A B} (f : A -> exn + B) (l : list A) (bs : list B) :
  map_sum f l = inr bs -> length bs = length l.
Proof.
  revert bs. induction l as [|x l IH]; intros bs H; simpl in H.
  - by simplify_eq.
  - destruct (f x); [done|]. destruct (map_sum f l); [done|].
    simplify_eq. simpl. f_equal. by apply IH.
Qed.

(** The first dimension of the array of a list is the length of the list. *)
Lemma np_array_shape0 (env : Env) (l : list pyval) (arr : ndarray) :
  np_array env (PList l) = inr arr -> shape0 arr = inr (length l).
Proof.
  simpl. destruct (map_sum (np_array env) l) as [e|[|a rest]] eqn:Hconv; [done| |].
  - apply map_sum_length in Hconv. intros H. simplify_eq.
    destruct l; [done|discriminate].
  - destruct (forallb _ rest); [|done]. intros H. by simplify_eq.
Qed.

(** C6 (as amended): [predict_fetal] converts the ["features"] list to a
    float array before it looks at the length (lines 156-158).  For an
    authenticated request whose body is a JSON object with a ["features"]
    list: when numpy refuses the list (an element that is not a number), the
    answer is 500 "Unexpected error: ..." with the conversion's message,
    whatever the length; when numpy converts it and the length is other than
    15, the answer is 400 "Invalid feature length, expected 15"; in both
    cases no table changes and no call reaches the store.  With 15 converted
    features, a label id outside 1..3 from the classifier is answered 200
    with the status "Unknown". *)
Theorem predict_fetal_arity_and_unknown (env : Env) (req : request) (s : Sys)
    (uid : string) (d : dict) (l : list pyval) :
  authenticated env req uid ->
  json req = inr (PDict d) ->
  dict_get "features" d = Some (PList l) ->
  (forall e,
      np_array env (PList l) = inl e ->
      exists s',
        predict_fetal env req s
        = (inr (Response 500 (error_body ("Unexpected error: " +:+ str_exn e))), s') /\
        db s' = db s /\
        (forall q, CallDb q ∈ calls s' -> CallDb q ∈ calls s)) /\
  (forall arr,
      np_array env (PList l) = inr arr ->
      length l <> 15%nat ->
      exists s',
        predict_fetal env req s
        = (inr (Response 400 (error_body "Invalid feature length, expected 15")), s') /\
        db s' = db s /\
        (forall q, CallDb q ∈ calls s' -> CallDb q ∈ calls s)) /\
  (forall arr scaled label,
      np_array env (PList l) = inr arr ->
      length l = 15%nat ->
      scaler_transform env (flat arr) = inr scaled ->
      model_predict env scaled = inr label ->
      label <> 1 /\ label <> 2 /\ label <> 3 ->
      (forall row, execute_error env (Insert "ctg" row) = None) ->
      exists s',
        predict_fetal env req s
        = (inr (Response 200 (PDict [("prediction", PInt label);
                                     ("status", PStr "Unknown")])), s')).
Proof.
  intros Hauth Hjson Hfeatures.
  destruct (authenticated_token _ _ _ Hauth) as (token & Hbearer & Htoken & Huser).
  assert (Htruthy : py_truthy (PDict d) = true).
  { destruct d; [done|reflexivity]. }
  assert (Hpresent : py_contains "features" (PDict d) = inr true).
  { unfold py_contains. by rewrite Hfeatures. }
  assert (Hunknown : forall label,
             label <> 1 /\ label <> 2 /\ label <> 3 ->
             lookup_label health_status label = None).
  { intros label (H1 & H2 & H3). simpl.
    apply Z.eqb_neq in H1 as ->. apply Z.eqb_neq in H2 as ->.
    by apply Z.eqb_neq in H3 as ->. }
  split_and!.
  - intros e Harr.
    unfold predict_fetal, execute, py_getitem. run_monad.
    rewrite Hbearer, Htoken. fetal_step. rewrite Huser, Hjson. fetal_step.
    rewrite Htruthy. fetal_step. rewrite Hpresent. fetal_step.
    rewrite Hfeatures, Harr. fetal_step.
    eexists. split; [reflexivity|]. split; [done|].
    intros q Hq. by apply elem_of_snoc_ne in Hq.
  - intros arr Harr Hlen.
    pose proof (np_array_shape0 _ _ _ Harr) as Hshape.
    unfold predict_fetal, execute, py_getitem. run_monad.
    rewrite Hbearer, Htoken. fetal_step. rewrite Huser, Hjson. fetal_step.
    rewrite Htruthy. fetal_step. rewrite Hpresent. fetal_step.
    rewrite Hfeatures, Harr, Hshape. fetal_step.
    unfold expected_feature_length.
    apply Nat.eqb_neq in Hlen as ->. fetal_step.
    eexists. split; [reflexivity|]. split; [done|].
    intros q Hq. by apply elem_of_snoc_ne in Hq.
  - intros arr scaled label Harr Hlen Hscale Hpredict Hlabel Hstore.
    pose proof (np_array_shape0 _ _ _ Harr) as Hshape.
    unfold predict_fetal, execute, py_getitem. run_monad.
    rewrite Hbearer, Htoken. fetal_step. rewrite Huser, Hjson. fetal_step.
    rewrite Htruthy. fetal_step. rewrite Hpresent. fetal_step.
    rewrite Hfeatures, Harr, Hshape. fetal_step.
    unfold expected_feature_length.
    rewrite Hlen. fetal_step. rewrite Hscale, Hpredict, Hstore. fetal_step.
    rewrite (Hunknown label Hlabel). by eexists.
Qed.

(** C6 at one feature that is not a number, at 14 features, and at 15
    features with the label id 7. *)
Lemma predict_fetal_arity_and_unknown_witness :
  (exists s',
      predict_fetal (sample_env 1 post_down)
        (Request alice_header (inr (PDict [("features", PList [PStr "abc"])])))
        empty_sys
      = (inr (Response 500
                (error_body "Unexpected error: could not convert string to float")),
         s') /\
      db s' = db empty_sys /\
      (forall q, CallDb q ∈ calls s' -> CallDb q ∈ calls empty_sys)) /\
  (exists s',
      predict_fetal (sample_env 1 post_down) (fetal_request 14) empty_sys
      = (inr (Response 400 (error_body "Invalid feature length, expected 15")), s') /\
      db s' = db empty_sys /\
      (forall q, CallDb q ∈ calls s' -> CallDb q ∈ calls empty_sys)) /\
  (exists s',
      predict_fetal (sample_env 7 post_down) (fetal_request 15) empty_sys
      = (inr (Response 200 (PDict [("prediction", PInt 7);
                                   ("status", PStr "Unknown")])), s')).
Proof.
  split_and!.
  - apply (proj1 (predict_fetal_arity_and_unknown (sample_env 1 post_down)
                    (Request alice_header
                       (inr (PDict [("features", PList [PStr "abc"])])))
                    empty_sys "alice" [("features", PList [PStr "abc"])]
                    [PStr "abc"]
                    (alice_authenticated _ _ _) eq_refl eq_refl)
             (Exception "ValueError" "could not convert string to float")).
    reflexivity.
  - eapply (proj1 (proj2 (predict_fetal_arity_and_unknown
                            (sample_env 1 post_down) (fetal_request 14)
                            empty_sys "alice" _ _
                            (alice_authenticated _ _ _) eq_refl eq_refl))).
    + vm_compute. reflexivity.
    + vm_compute. discriminate.
  - eapply (proj2 (proj2 (predict_fetal_arity_and_unknown
                            (sample_env 7 post_down) (fetal_request 15)
                            empty_sys "alice" _ _
                            (alice_authenticated _ _ _) eq_refl eq_refl))).
    + vm_compute. reflexivity.
    + reflexivity.
    + reflexivity.
    + reflexivity.
    + lia.
    + reflexivity.
Defined.

(** C6, as stated, fails: an authenticated request whose features list has
    one element, the text "abc".  Its length is not 15, yet the answer is
    not the 400 of the length check: the conversion of line 156 raises
    first and the outer except clause answers 500. *)
Lemma non_numeric_features_not_400 :
  ~ (forall r s',
        predict_fetal (sample_env 1 post_down)
          (Request alice_header (inr (PDict [("features", PList [PStr "abc"])])))
          empty_sys
        = (inr r, s') ->
        length [PStr "abc"] <> expected_feature_length ->
        status r = 400%nat /\ db s' = db empty_sys).
Proof.
  intros Hclaim.
  edestruct Hclaim as [Hstatus _].
  - vm_compute. reflexivity.
  - vm_compute. discriminate.
  - vm_compute in Hstatus. discriminate.
Qed.

(** The run behind the counterexample, in full. *)
Example non_numeric_features_run :
  authenticated (sample_env 1 post_down)
    (Request alice_header (inr (PDict [("features", PList [PStr "abc"])])))
    "alice" /\
  predict_fetal (sample_env 1 post_down)
    (Request alice_header (inr (PDict [("features", PList [PStr "abc"])])))
    empty_sys
  = (inr (Response 500
            (error_body "Unexpected error: could not convert string to float")),
     {| db := ∅; calls := [CallGetUser "alice-token"] |}).
Proof. split; [apply alice_authenticated|]. vm_compute. reflexivity. Qed.

(** ** Failing inputs *)

(** C3: GET /chat with a valid token for a user without a stored conversation:
    [chat_data.data[0]] raises IndexError and, the handler having no try
    block, the exception leaves the view function; POST /chat in the same
    state seeds the conversation. *)
Theorem chatbot_get_without_conversation :
  authenticated (sample_env 0 (post_reply "Hello")) (Request alice_header (inr PNone)) "alice" /\
  rows (db empty_sys) "chats" = [] /\
  chatbot_get (sample_env 0 (post_reply "Hello")) (Request alice_header (inr PNone)) empty_sys
  = (inl (Exception "IndexError" "list index out of range"),
     {| db := ∅;
        calls := [CallGetUser "alice-token"; CallDb (Select "chats" "UID" "alice")] |}) /\
  conversation empty_sys "alice" = inr (PList [seed_message]).
Proof.
  split; [apply alice_authenticated|].
  split; [reflexivity|]. split; [|reflexivity].
  vm_compute. reflexivity.
Qed.

(** C7: the identity provider raises on the token.  [predict_maternal] lets
    the exception reach its general except clause and answers 500, as do
    [pregnancy_diet] and [chatbot]; [predict_fetal], which guards the call,
    answers 401. *)
Theorem provider_error_gives_500 :
  let env := sample_env 0 (post_reply "Hello") in
  let req := Request (Some "Bearer stale-token") (json vitals_request) in
  get_user env "stale-token" = inl (Exception "AuthApiError" "invalid JWT") /\
  fst (predict_maternal env req empty_sys)
  = inr (Response 500 (error_body "invalid JWT")) /\
  fst (pregnancy_diet env req empty_sys)
  = inr (Response 500 (error_body "invalid JWT")) /\
  fst (chatbot env req empty_sys)
  = inr (Response 500 (error_body "invalid JWT")) /\
  fst (predict_fetal env req empty_sys)
  = inr (Response 401 (error_body "Failed to validate token")).
Proof. simpl. split_and!; vm_compute; reflexivity. Qed.

(** C8: no Authorization header and a body that is not JSON.  [chatbot] and
    [pregnancy_diet] read [request.json] before they look at the header, so
    the parse error reaches the except clause and the answer is 500;
    [predict_maternal] and [predict_fetal], which look at the header first,
    answer 401.  No call leaves the process in either case. *)
Theorem body_read_before_header :
  let env := sample_env 0 (post_reply "Hello") in
  let req := Request None bad_json in
  no_valid_token (authorization req) = true /\
  chatbot env req empty_sys
  = (inr (Response 500 (error_body "400 Bad Request: Failed to decode JSON object")),
     empty_sys) /\
  pregnancy_diet env req empty_sys
  = (inr (Response 500 (error_body "400 Bad Request: Failed to decode JSON object")),
     empty_sys) /\
  predict_maternal env req empty_sys
  = (inr (Response 401 (error_body "No valid token provided")), empty_sys) /\
  predict_fetal env req empty_sys
  = (inr (Response 401 (error_body "No valid token provided")), empty_sys).
Proof. simpl. split_and!; reflexivity. Qed.

(** ** The bearer check, and GET /chat *)

(** A request whose Authorization header is missing or does not start with
    "Bearer " causes no call and no write on any protected route.
    [predict_maternal], [predict_fetal] and [chatbot_get] answer 401;
    [chatbot] and [pregnancy_diet], which read the body first, answer 401 when
    the body parses and the 500 envelope of the parse error otherwise. *)
Theorem no_token_no_effects (env : Env) (req : request) (s : Sys) :
  no_valid_token (authorization req) = true ->
  let denied := (inr (Response 401 (error_body "No valid token provided")), s) in
  let denied_after_body :=
    match json req with
    | inr _ => denied
    | inl e => (inr (Response 500 (error_body (str_exn e))), s)
    end in
  predict_maternal env req s = denied /\
  predict_fetal env req s = denied /\
  chatbot_get env req s = denied /\
  chatbot env req s = denied_after_body /\
  pregnancy_diet env req s = denied_after_body.
Proof.
  intros Hheader. simpl.
  unfold predict_maternal, predict_fetal, chatbot_get, chatbot, pregnancy_diet.
  run_monad. rewrite Hheader. simpl.
  by destruct (json req).
Qed.

Lemma no_token_no_effects_witness :
  let req := Request (Some "Basic dXNlcjpwYXNz") (inr (PDict [("message", PStr "Hi")])) in
  let env := sample_env 0 (post_reply "Hello") in
  let denied :=
    (inr (Response 401 (error_body "No valid token provided")), empty_sys) in
  predict_maternal env req empty_sys = denied /\
  predict_fetal env req empty_sys = denied /\
  chatbot_get env req empty_sys = denied /\
  chatbot env req empty_sys = denied /\
  pregnancy_diet env req empty_sys = denied.
Proof.
  exact (no_token_no_effects (sample_env 0 (post_reply "Hello"))
           (Request (Some "Basic dXNlcjpwYXNz") (inr (PDict [("message", PStr "Hi")])))
           empty_sys eq_refl).
Defined.

(** GET /chat changes no table, and its outcome depends on the tables alone:
    a second GET right after the first gives the same outcome. *)
Theorem chatbot_get_idempotent (env : Env) (req : request) (s : Sys) :
  db (snd (chatbot_get env req s)) = db s /\
  fst (chatbot_get env req (snd (chatbot_get env req s)))
  = fst (chatbot_get env req s).
Proof.
  assert (Hframe : forall s0, db (snd (chatbot_get env req s0)) = db s0).
  { intros s0. unfold chatbot_get, execute. run_monad. by split_cases. }
  assert (Hdb : forall s1 s2,
             db s1 = db s2 ->
             fst (chatbot_get env req s1) = fst (chatbot_get env req s2)).
  { intros s1 s2 Heq. unfold chatbot_get, execute. run_monad.
    destruct (no_valid_token (authorization req)); [done|].
    destruct (token_of (authorization req)) as [e|token]; [done|]. simpl.
    destruct (get_user env token) as [e|[|[uid|]]]; simpl; try done.
    destruct (execute_error env _); simpl; [done|].
    rewrite Heq. by repeat case_match. }
  split; [apply Hframe|]. apply Hdb, Hframe.
Qed.

(** ** Wrong-length features, whoever sends them *)

(** For every request to [/predict_fetal] whose ["features"] is a list of a
    length other than 15, numeric or not, authenticated or not, no table
    changes and no call reaches the store; the answer is 400, 401 or 500. *)
Theorem predict_fetal_wrong_length_no_write (env : Env) (req : request)
    (s : Sys) (d : dict) (l : list pyval) :
  json req = inr (PDict d) ->
  dict_get "features" d = Some (PList l) ->
  length l <> 15%nat ->
  exists r s',
    predict_fetal env req s = (inr r, s') /\
    db s' = db s /\
    (forall q, CallDb q ∈ calls s' -> CallDb q ∈ calls s) /\
    (status r = 400%nat \/ status r = 401%nat \/ status r = 500%nat).
Proof.
  intros Hjson Hfeatures Hlen.
  assert (Htruthy : py_truthy (PDict d) = true).
  { destruct d; [done|reflexivity]. }
  assert (Hpresent : py_contains "features" (PDict d) = inr true).
  { unfold py_contains. by rewrite Hfeatures. }
  assert (Hlog : forall q token l0,
             CallDb q ∈ l0 ++ [CallGetUser token] -> CallDb q ∈ l0).
  { intros q token l0. by apply elem_of_snoc_ne. }
  unfold predict_fetal, execute, py_getitem. run_monad.
  destruct (no_valid_token (authorization req)); fetal_step.
  { eexists _, _. split; [reflexivity|]. simpl. by auto. }
  destruct (token_of (authorization req)) as [e|token]; fetal_step.
  { eexists _, _. split; [reflexivity|]. simpl. by auto. }
  destruct (get_user env token) as [e|[|[uid|]]]; fetal_step;
    try (eexists _, _; split; [reflexivity|]; simpl;
         split_and!; [done|intros q; apply Hlog|auto]).
  rewrite Hjson. fetal_step. rewrite Htruthy. fetal_step.
  rewrite Hpresent. fetal_step. rewrite Hfeatures.
  destruct (np_array env (PList l)) as [e|arr] eqn:Harr; fetal_step.
  { eexists _, _. split; [reflexivity|]. simpl.
    split_and!; [done|intros q; apply Hlog|auto]. }
  rewrite (np_array_shape0 _ _ _ Harr). fetal_step.
  unfold expected_feature_length.
  apply Nat.eqb_neq in Hlen as ->. fetal_step.
  eexists _, _. split; [reflexivity|]. simpl.
  split_and!; [done|intros q; apply Hlog|auto].
Qed.

(** One feature that is not a number: 500, nothing written. *)
Lemma predict_fetal_wrong_length_no_write_witness :
  exists r s',
    predict_fetal (sample_env 1 post_down)
      (Request alice_header (inr (PDict [("features", PList [PStr "abc"])])))
      empty_sys = (inr r, s') /\
    db s' = db empty_sys /\
    (forall q, CallDb q ∈ calls s' -> CallDb q ∈ calls empty_sys) /\
    (status r = 400%nat \/ status r = 401%nat \/ status r = 500%nat).
Proof.
  apply (predict_fetal_wrong_length_no_write (sample_env 1 post_down)
           (Request alice_header (inr (PDict [("features", PList [PStr "abc"])])))
           empty_sys [("features", PList [PStr "abc"])] [PStr "abc"]);
    [reflexivity|reflexivity|simpl; lia].
Defined.

(** ** The bearer token *)

Lemma split_nonempty (sep : ascii) (s : string) :
  exists w ws, split sep s = w :: ws.
Proof.
  induction s as [|c s (w & ws & IH)]; simpl; [eauto|].
  destruct (Ascii.eqb c sep); [eauto|]. rewrite IH. eauto.
Qed.

Lemma split_first (sep : ascii) (t rest : string) :
  has_char sep t = false ->
  split sep (t +:+ String sep rest) = t :: split sep rest.
Proof.
  induction t as [|c t IH]; simpl.
  - by rewrite Ascii.eqb_refl.
  - intros H. apply orb_false_iff in H as [Hc Ht].
    by rewrite Hc, (IH Ht).
Qed.

Lemma split_no_sep (sep : ascii) (t : string) :
  has_char sep t = false -> split sep t = [t].
Proof.
  induction t as [|c t IH]; simpl; [done|].
  intros H. apply orb_false_iff in H as [Hc Ht].
  by rewrite Hc, (IH Ht).
Qed.

Lemma prefix_app (p s : string) :
  String.prefix p s = true -> exists x, s = p +:+ x.
Proof.
  revert s. induction p as [|c p IH]; intros s.
  - simpl. eauto.
  - destruct s as [|c' s]; simpl; [done|].
    destruct (ascii_dec c c') as [->|]; [|done].
    intros H. destruct (IH _ H) as [x ->]. eauto.
Qed.

(** A header that passed the check of the handlers is "Bearer " followed by
    some text, and [split(' ')[1]] on it never raises.  For "Bearer <t>" with
    no space in <t> the token is <t>; whatever follows a further space is
    dropped. *)
Theorem bearer_token_extraction :
  (forall h, no_valid_token h = false ->
             exists x token, h = Some ("Bearer " +:+ x) /\ token_of h = inr token) /\
  (forall t, has_char " " t = false ->
             token_of (Some ("Bearer " +:+ t)) = inr t) /\
  (forall t rest, has_char " " t = false ->
                  token_of (Some ("Bearer " +:+ t +:+ String " " rest)) = inr t).
Proof.
  assert (Hsplit : forall x, split " " ("Bearer " +:+ x) = "Bearer" :: split " " x).
  { intros x. exact (split_first " " "Bearer" x eq_refl). }
  split_and!.
  - intros [h|] Hh; [|done]. simpl in Hh. apply negb_false_iff in Hh.
    destruct (prefix_app _ _ Hh) as [x ->].
    destruct (split_nonempty " " x) as (w & ws & Hx).
    exists x, w. split; [done|].
    unfold token_of. cbn [default from_option id]. by rewrite Hsplit, Hx.
  - intros t Ht. unfold token_of. cbn [default from_option id].
    by rewrite Hsplit, (split_no_sep _ _ Ht).
  - intros t rest Ht. unfold token_of. cbn [default from_option id].
    by rewrite Hsplit, (split_first _ _ _ Ht).
Qed.

(** ** Outcomes of the writing handlers *)

(** For a body that is a JSON object, [create_doctor_profile] sends exactly
    one upsert to [doctors], of the five fields of the body with [None] for
    each missing one (other keys are dropped); the answer is 200 with the
    stored rows when the store accepts it and the 500 envelope of the store's
    error, with no change, when it does not.  A body that is not a JSON
    object (or does not parse) is answered 500 and nothing is sent. *)
Theorem create_doctor_profile_outcomes (env : Env) (h : option string) (s : Sys) :
  (forall d,
      exists r s',
        create_doctor_profile env (Request h (inr (PDict d))) s = (inr r, s') /\
        calls s' = calls s ++ [CallDb (Upsert "doctors" (doctor_row d))] /\
        match execute_error env (Upsert "doctors" (doctor_row d)) with
        | Some e => r = Response 500 (error_body (str_exn e)) /\ db s' = db s
        | None =>
            r = Response 200
                  (PDict [("message", PStr "Doctor profile created successfully");
                          ("data",
                           PList (map PDict
                                    (upsert_data (primary_key env "doctors")
                                       (doctor_row d) (rows (db s) "doctors"))))]) /\
            db s' = <["doctors" := upsert_rows (primary_key env "doctors")
                                     (doctor_row d) (rows (db s) "doctors")]> (db s)
        end) /\
  (forall b,
      (forall d, b <> inr (PDict d)) ->
      exists msg,
        create_doctor_profile env (Request h b) s
        = (inr (Response 500 (error_body msg)), s)).
Proof.
  split.
  - intros d. unfold create_doctor_profile, execute. run_monad.
    cbn -[dict_get]. fold (doctor_row d).
    change (dict_of _) with (doctor_row d).
    destruct (execute_error env _) as [e|]; eexists _, _; by split_and!.
  - intros [e|v] Hb; unfold create_doctor_profile; run_monad; simpl.
    + by eexists.
    + destruct v; try (by eexists). by destruct (Hb d).
Qed.

Lemma risk_mapping_names (label : Z) (name : string) :
  lookup_label risk_mapping label = Some name ->
  name ∈ ["Normal"; "Suspect"; "Pathological"].
Proof.
  simpl. intros H. apply list_elem_of_In. simpl.
  destruct (label =? 0); [simplify_eq; auto|].
  destruct (label =? 1); [simplify_eq; auto|].
  destruct (label =? 2); [simplify_eq; auto|done].
Qed.

(** Every answer of [predict_maternal] is a 200 naming Normal, Suspect or
    Pathological, with exactly one row of the seven vitals columns appended to
    [vitals]; or a 401 or 500 with an error envelope, and then no table has
    changed. *)
Theorem predict_maternal_outcomes (env : Env) (req : request) (s : Sys) :
  exists r s',
    predict_maternal env req s = (inr r, s') /\
    ((status r = 200%nat /\
      exists name row,
        body r = PDict [("prediction", PStr name)] /\
        name ∈ ["Normal"; "Suspect"; "Pathological"] /\
        map fst row = vitals_columns /\
        db s' = <["vitals" := rows (db s) "vitals" ++ [row]]> (db s))
     \/
     ((status r = 401%nat \/ status r = 500%nat) /\
      (exists msg, body r = error_body msg) /\
      db s' = db s)).
Proof.
  unfold predict_maternal, execute. run_monad.
  destruct (no_valid_token (authorization req)); maternal_step; [answered_error|].
  destruct (token_of (authorization req)) as [e|token]; maternal_step;
    [answered_error|].
  destruct (get_user env token) as [e|user_data]; maternal_step; [answered_error|].
  destruct user_data as [|user]; maternal_step; [answered_error|].
  destruct (json req) as [e|data]; maternal_step; [answered_error|].
  destruct (py_getitem data "age") as [e|v1]; maternal_step; [answered_error|].
  destruct (py_float env v1) as [e|x1]; maternal_step; [answered_error|].
  destruct (py_getitem data "systolic_bp") as [e|v2]; maternal_step; [answered_error|].
  destruct (py_float env v2) as [e|x2]; maternal_step; [answered_error|].
  destruct (py_getitem data "diastolic_bp") as [e|v3]; maternal_step; [answered_error|].
  destruct (py_float env v3) as [e|x3]; maternal_step; [answered_error|].
  destruct (py_getitem data "blood_glucose") as [e|v4]; maternal_step; [answered_error|].
  destruct (py_float env v4) as [e|x4]; maternal_step; [answered_error|].
  destruct (py_getitem data "body_temp") as [e|v5]; maternal_step; [answered_error|].
  destruct (py_float env v5) as [e|x5]; maternal_step; [answered_error|].
  destruct (py_getitem data "heart_rate") as [e|v6]; maternal_step; [answered_error|].
  destruct (py_float env v6) as [e|x6]; maternal_step; [answered_error|].
  destruct (maternal_scaler_transform env _) as [e|scaled]; maternal_step;
    [answered_error|].
  destruct (maternal_model_predict env scaled) as [e|label]; maternal_step;
    [answered_error|].
  destruct (lookup_label risk_mapping label) as [name|] eqn:Hname; maternal_step;
    [|answered_error].
  destruct user as [uid|]; maternal_step; [|answered_error].
  destruct (execute_error env _) as [e|]; maternal_step; [answered_error|].
  eexists _, _. split; [reflexivity|]. left. split; [done|].
  eexists name, _. split_and!; [done|by eapply risk_mapping_names| |reflexivity].
  reflexivity.
Qed.

(** A label id outside 0..2 from the maternal classifier is not mapped: the
    lookup in [risk_mapping] raises KeyError, the answer is 500 with the label
    id as message, and nothing is sent to the store. *)
Theorem predict_maternal_unknown_label (env : Env) (req : request) (s : Sys)
    (uid : string) (d : dict) (xs scaled : list float) (label : Z) :
  authenticated env req uid ->
  json req = inr (PDict d) ->
  valid_features env d maternal_fields xs ->
  maternal_scaler_transform env xs = inr scaled ->
  maternal_model_predict env scaled = inr label ->
  label < 0 \/ 2 < label ->
  exists token,
    predict_maternal env req s
    = (inr (Response 500 (error_body (pretty label))),
       logged (CallGetUser token) s).
Proof.
  intros Hauth Hjson Hvalid Hscale Hpredict Hlabel.
  destruct (authenticated_token _ _ _ Hauth) as (token & Hbearer & Htoken & Huser).
  unfold valid_features, maternal_fields in Hvalid.
  apply Forall2_cons_inv_l in Hvalid as (x1 & ? & (v1 & Hv1 & Hx1) & Hvalid & ->).
  apply Forall2_cons_inv_l in Hvalid as (x2 & ? & (v2 & Hv2 & Hx2) & Hvalid & ->).
  apply Forall2_cons_inv_l in Hvalid as (x3 & ? & (v3 & Hv3 & Hx3) & Hvalid & ->).
  apply Forall2_cons_inv_l in Hvalid as (x4 & ? & (v4 & Hv4 & Hx4) & Hvalid & ->).
  apply Forall2_cons_inv_l in Hvalid as (x5 & ? & (v5 & Hv5 & Hx5) & Hvalid & ->).
  apply Forall2_cons_inv_l in Hvalid as (x6 & ? & (v6 & Hv6 & Hx6) & Hvalid & ->).
  apply Forall2_nil_inv_l in Hvalid as ->.
  assert (label <> 0 /\ label <> 1 /\ label <> 2) as (H0 & H1 & H2) by lia.
  apply Z.eqb_neq in H0, H1, H2.
  exists token.
  unfold predict_maternal, execute, py_getitem. run_monad.
  rewrite Hbearer, Htoken. simpl. rewrite Huser, Hjson. simpl.
  rewrite Hv1, Hx1, Hv2, Hx2, Hv3, Hx3, Hv4, Hx4, Hv5, Hx5, Hv6, Hx6.
  rewrite Hscale, Hpredict. simpl. by rewrite H0, H1, H2.
Qed.

(** The example request against a classifier that answers 7. *)
Lemma predict_maternal_unknown_label_witness :
  exists token,
    predict_maternal (sample_env 7 post_down) vitals_request empty_sys
    = (inr (Response 500 (error_body "7")), logged (CallGetUser token) empty_sys).
Proof.
  apply (predict_maternal_unknown_label (sample_env 7 post_down) vitals_request
           empty_sys "alice" vitals_body vitals_floats vitals_floats 7).
  - apply alice_authenticated.
  - reflexivity.
  - repeat (constructor; [eexists; split; reflexivity|]). constructor.
  - reflexivity.
  - reflexivity.
  - lia.
Defined.

(** ** Outcomes of /predict_fetal *)

Lemma health_status_names (label : Z) :
  default "Unknown" (lookup_label health_status label)
  ∈ ["Normal"; "Suspect"; "Pathological"; "Unknown"].
Proof.
  simpl. apply list_elem_of_In.
  destruct (label =? 1); [simpl; auto|].
  destruct (label =? 2); [simpl; auto|].
  destruct (label =? 3); simpl; auto.
Qed.

(** Every answer of [predict_fetal] is a 200 carrying the label id and one
    of Normal, Suspect, Pathological, Unknown, with exactly one row appended
    to [ctg] that holds the label id; or a 400, 401 or 500 with an error
    envelope, and then no table has changed. *)
Theorem predict_fetal_outcomes (env : Env) (req : request) (s : Sys) :
  exists r s',
    predict_fetal env req s = (inr r, s') /\
    ((status r = 200%nat /\
      exists label name row,
        body r = PDict [("prediction", PInt label); ("status", PStr name)] /\
        name ∈ ["Normal"; "Suspect"; "Pathological"; "Unknown"] /\
        dict_get "prediction" row = Some (PInt label) /\
        db s' = <["ctg" := rows (db s) "ctg" ++ [row]]> (db s))
     \/
     ((status r = 400%nat \/ status r = 401%nat \/ status r = 500%nat) /\
      (exists msg, body r = error_body msg) /\
      db s' = db s)).
Proof.
  unfold predict_fetal, execute. run_monad.
  destruct (no_valid_token (authorization req)); fetal_step; [answered_error|].
  destruct (token_of (authorization req)) as [e|token]; fetal_step;
    [answered_error|].
  destruct (get_user env token) as [e|[|[uid|]]]; fetal_step;
    [answered_error|answered_error| |answered_error].
  destruct (json req) as [e|data]; fetal_step; [answered_error|].
  destruct (py_truthy data); fetal_step; [|answered_error].
  destruct (py_contains "features" data) as [e|[|]]; fetal_step;
    [answered_error| |answered_error].
  destruct (py_getitem data "features") as [e|raw]; fetal_step; [answered_error|].
  destruct (np_array env raw) as [e|features]; fetal_step; [answered_error|].
  destruct (shape0 features) as [e|n]; fetal_step; [answered_error|].
  destruct (n =? expected_feature_length)%nat; fetal_step; [|answered_error].
  destruct (scaler_transform env _) as [e|scaled]; fetal_step; [answered_error|].
  destruct (model_predict env scaled) as [e|label]; fetal_step; [answered_error|].
  destruct (execute_error env _) as [e|]; fetal_step; [answered_error|].
  eexists _, _. split; [reflexivity|]. left. split; [done|].
  eexists label, _, _. split_and!; [done|apply health_status_names| |reflexivity].
  apply dict_get_set_eq.
Qed.

(** *** A vector of fifteen features *)

Lemma map_sum_scalars (env : Env) (l : list pyval) (xs : list float) :
  numeric_vector env l xs ->
  map_sum (np_array env) l = inr (map scalar xs).
Proof.
  induction 1 as [|v x l xs Hv _ IH]; [done|].
  cbn [map_sum map]. fold (map_sum (np_array env)).
  by rewrite Hv, IH.
Qed.

Lemma scalars_same_shape (a : ndarray) (xs : list float) :
  shape a = [] ->
  forallb (fun b => shape_eqb (shape b) (shape a)) (map scalar xs) = true.
Proof.
  intros ->. induction xs as [|x xs IH]; [done|]. simpl. by rewrite IH.
Qed.

Lemma scalars_flat (xs : list float) : concat (map flat (map scalar xs)) = xs.
Proof. induction xs as [|x xs IH]; [done|]. simpl. by rewrite IH. Qed.

(** The array of a non-empty vector of numbers is one-dimensional. *)
Lemma np_array_vector (env : Env) (l : list pyval) (xs : list float) :
  numeric_vector env l xs -> l <> [] ->
  np_array env (PList l) = inr {| shape := [length l]; flat := xs |}.
Proof.
  intros Hvec Hne.
  pose proof (map_sum_scalars _ _ _ Hvec) as Hsum.
  cbn [np_array]. rewrite Hsum.
  destruct Hvec as [|v x l xs Hv Hvec]; [done|].
  cbn [map]. rewrite scalars_same_shape by done.
  f_equal. f_equal. exact (scalars_flat (x :: xs)).
Qed.

(** With fifteen numeric features, an authenticated request, and scaler,
    classifier and store all answering, [predict_fetal] answers 200 with the
    label id and its status name, and appends one row to [ctg] by one insert:
    the user id, the fifteen values as floats under [feature_names] in order,
    and the label id. *)
Theorem predict_fetal_persists (env : Env) (req : request) (s : Sys)
    (uid : string) (d : dict) (l : list pyval) (xs scaled : list float)
    (label : Z) :
  authenticated env req uid ->
  json req = inr (PDict d) ->
  dict_get "features" d = Some (PList l) ->
  numeric_vector env l xs ->
  length l = 15%nat ->
  scaler_transform env xs = inr scaled ->
  model_predict env scaled = inr label ->
  (forall row, execute_error env (Insert "ctg" row) = None) ->
  exists token s',
    predict_fetal env req s
    = (inr (Response 200
              (PDict [("prediction", PInt label);
                      ("status",
                       PStr (default "Unknown"
                               (lookup_label health_status label)))])), s') /\
    db s' = <["ctg" := rows (db s) "ctg" ++ [ctg_row uid xs label]]> (db s) /\
    calls s' = calls s ++ [CallGetUser token;
                           CallDb (Insert "ctg" (ctg_row uid xs label))] /\
    map fst (ctg_row uid xs label) = "UID" :: feature_names ++ ["prediction"].
Proof.
  intros Hauth Hjson Hfeatures Hvec Hlen Hscale Hpredict Hstore.
  destruct (authenticated_token _ _ _ Hauth) as (token & Hbearer & Htoken & Huser).
  assert (Hne : l <> []) by (by destruct l).
  pose proof (np_array_vector _ _ _ Hvec Hne) as Harr.
  assert (Hxs : length xs = 15%nat).
  { by rewrite <- (Forall2_length _ _ _ Hvec). }
  assert (Htruthy : py_truthy (PDict d) = true).
  { destruct d; [done|reflexivity]. }
  assert (Hpresent : py_contains "features" (PDict d) = inr true).
  { unfold py_contains. by rewrite Hfeatures. }
  assert (Hrow :
            dict_set "prediction" (PInt label)
              (dict_update (dict_of [("UID", PStr uid)])
                 (dict_of (map (fun kv => (fst kv, PFloat (snd kv)))
                             (zip feature_names xs))))
            = ctg_row uid xs label
            /\ map fst (ctg_row uid xs label)
               = "UID" :: feature_names ++ ["prediction"]).
  { clear -Hxs.
    do 15 (destruct xs as [|? xs]; [done|]). destruct xs; [|done].
    split; reflexivity. }
  destruct Hrow as [Hrow Hkeys].
  exists token.
  unfold predict_fetal, execute, py_getitem. run_monad.
  rewrite Hbearer, Htoken. fetal_step. rewrite Huser, Hjson. fetal_step.
  rewrite Htruthy. fetal_step. rewrite Hpresent. fetal_step.
  rewrite Hfeatures, Harr. fetal_step.
  unfold expected_feature_length. rewrite Hlen. fetal_step.
  rewrite Hscale, Hpredict. fetal_step. rewrite Hrow, Hstore. fetal_step.
  eexists. split_and!; [reflexivity|done| |done].
  simpl. by rewrite <- app_assoc.
Qed.

(** Fifteen features, every one the int 1, and the label id 2. *)
Lemma predict_fetal_persists_witness :
  exists token s',
    predict_fetal (sample_env 2 post_down) (fetal_request 15) empty_sys
    = (inr (Response 200
              (PDict [("prediction", PInt 2);
                      ("status",
                       PStr (default "Unknown" (lookup_label health_status 2)))])),
       s') /\
    db s' = <["ctg" := rows (db empty_sys) "ctg"
                       ++ [ctg_row "alice" (repeat (Float64 4607182418800017408) 15) 2]]>
              (db empty_sys) /\
    calls s' = calls empty_sys
               ++ [CallGetUser token;
                   CallDb (Insert "ctg"
                             (ctg_row "alice"
                                (repeat (Float64 4607182418800017408) 15) 2))] /\
    map fst (ctg_row "alice" (repeat (Float64 4607182418800017408) 15) 2)
    = "UID" :: feature_names ++ ["prediction"].
Proof.
  apply (predict_fetal_persists (sample_env 2 post_down) (fetal_request 15)
           empty_sys "alice" [("features", PList (repeat (PInt 1) 15))]
           (repeat (PInt 1) 15) (repeat (Float64 4607182418800017408) 15)
           (repeat (Float64 4607182418800017408) 15) 2).
  - apply alice_authenticated.
  - reflexivity.
  - reflexivity.
  - repeat constructor.
  - reflexivity.
  - reflexivity.
  - reflexivity.
  - reflexivity.
Defined.

(** ** The chat client *)

(** [chat] sends one request and changes no table.  An exception of the
    endpoint call is re-raised as it is.  For a reply that is a JSON object,
    [response.message.content] is the content of the reply's message, [None]
    when the message has no content, and [None] as well when the reply has no
    message at all; the other keys of the reply are kept. *)
Theorem chat_reply_content (env : Env) (model messages : pyval) (s : Sys) :
  let payload := PDict [("model", model); ("messages", messages)] in
  (forall e,
      requests_post env payload = inl e ->
      chat env model messages s = (inl e, logged (CallChat payload) s)) /\
  (forall d m,
      requests_post env payload = inr (PDict d) ->
      dict_get "message" d = Some (PDict m) ->
      exists response,
        chat env model messages s = (inr response, logged (CallChat payload) s) /\
        message_content response = inr (default PNone (dict_get "content" m)) /\
        (forall k, k <> "message" -> dict_get k response = dict_get k d)) /\
  (forall d,
      requests_post env payload = inr (PDict d) ->
      dict_get "message" d = None ->
      exists response,
        chat env model messages s = (inr response, logged (CallChat payload) s) /\
        message_content response = inr PNone).
Proof.
  simpl. split_and!.
  - intros e He. unfold chat. run_monad. by rewrite He.
  - intros d m Hd Hm. unfold chat. run_monad. rewrite Hd. simpl. rewrite Hm. simpl.
    eexists. split; [reflexivity|]. unfold message_content.
    rewrite dict_get_set_eq. split; [done|].
    intros k Hk. by apply dict_get_set_ne.
  - intros d Hd Hm. unfold chat. run_monad. rewrite Hd. simpl. rewrite Hm. simpl.
    eexists. split; [reflexivity|]. unfold message_content.
    by rewrite dict_get_set_eq.
Qed.

(** ** POST /chat and GET /chat together *)

(** What a successful POST to [/chat] stored is what the next GET of the same
    user returns: the conversation the turn started from, the user message of
    the request, and the reply as an assistant message. *)
Theorem chat_post_then_get (env : Env) (req : request) (uid : string) (s : Sys)
    (r : response) (s' : Sys) (env' : Env) (req' : request) :
  authenticated env req uid ->
  primary_key env "chats" <> "chat_history" ->
  chatbot env req s = (inr r, s') ->
  status r = 200%nat ->
  authenticated env' req' uid ->
  execute_error env' (Select "chats" "UID" uid) = None ->
  exists h data prompt reply,
    conversation s uid = inr (PList h) /\
    json req = inr data /\
    py_getitem data "message" = inr prompt /\
    body r = PDict [("response", reply)] /\
    fst (chatbot_get env' req' s')
    = inr (Response 200
             (PList (h ++ [message "user" prompt;
                           message "assistant" (PStr (py_str env reply))]))).
Proof.
  intros [_ (token & Htoken & Huser)] Hkey Hrun Hok Hauth' Hsel.
  destruct (authenticated_token _ _ _ Hauth') as (token' & Hbearer' & Htoken' & Huser').
  destruct (chatbot_cases env req s) as (r0 & s0' & new & Hrun0 & _ & Hcases).
  rewrite Hrun in Hrun0. simplify_eq.
  destruct Hcases as [(_ & Hne & _)|Hcases]; [done|].
  destruct Hcases as (token0 & uid0 & data & h & prompt & s0 & out & s1 &
                      _ & Htoken0 & Huser0 & Hjson & Hconv & Hprompt & _ & _ & _ & Hout).
  rewrite Htoken in Htoken0. simplify_eq.
  rewrite Huser in Huser0. simplify_eq.
  destruct out as [e|response]; [by destruct Hout as [-> _]|].
  destruct Hout as (reply & _ & Hout). simpl in Hout.
  destruct (execute_error env _) as [e|]; [by destruct Hout as [-> _]|].
  destruct Hout as [-> Hdb].
  exists h, data, prompt, reply. split_and!; [done..|].
  destruct (select_latest_upsert (primary_key env "chats") uid0
              (PList ((h ++ [message "user" prompt])
                      ++ [message "assistant" (PStr (py_str env reply))]))
              (rows (db s) "chats") Hkey) as (row & Hrow & Hhistory).
  unfold chatbot_get, execute. run_monad.
  rewrite Hbearer', Htoken'. simpl. rewrite Huser'. simpl. rewrite Hsel.
  rewrite Hdb, rows_insert, Hrow. simpl. rewrite Hhistory. simpl.
  by rewrite <- app_assoc.
Qed.

(** Alice posts "Hi" and reads her conversation back. *)
Lemma chat_post_then_get_witness :
  exists h data prompt reply,
    conversation empty_sys "alice" = inr (PList h) /\
    json (chat_request "Hi") = inr data /\
    py_getitem data "message" = inr prompt /\
    body (Response 200 (PDict [("response", PStr "Hello")]))
    = PDict [("response", reply)] /\
    fst (chatbot_get (sample_env 0 post_down) (Request alice_header bad_json)
           (snd (chatbot (sample_env 0 (post_reply "Hello")) (chat_request "Hi")
                   empty_sys)))
    = inr (Response 200
             (PList (h ++ [message "user" prompt;
                           message "assistant"
                             (PStr (py_str (sample_env 0 (post_reply "Hello")) reply))]))).
Proof.
  apply (chat_post_then_get (sample_env 0 (post_reply "Hello")) (chat_request "Hi")
           "alice" empty_sys (Response 200 (PDict [("response", PStr "Hello")]))
           (snd (chatbot (sample_env 0 (post_reply "Hello")) (chat_request "Hi")
                   empty_sys))
           (sample_env 0 post_down) (Request alice_header bad_json)).
  - apply alice_authenticated.
  - discriminate.
  - vm_compute. reflexivity.
  - reflexivity.
  - apply alice_authenticated.
  - reflexivity.
Defined.

(** ** One user's POST and the other users' conversations *)

Lemma filter_untouched {A} (f g : A -> bool) (u : A -> A) (l : list A) :
  (forall x, g x = true -> f x = false /\ f (u x) = false) ->
  List.filter f (map (fun x => if g x then u x else x) l) = List.filter f l.
Proof.
  intros Hg. induction l as [|x l IH]; simpl; [done|].
  destruct (g x) eqn:E.
  - destruct (Hg x E) as [-> ->]. done.
  - by rewrite IH.
Qed.

Lemma col_is_other (uid other : string) (r : dict) :
  other <> uid ->
  col_is "UID" (PStr uid) r = true -> col_is "UID" (PStr other) r = false.
Proof.
  intros Hne. unfold col_is. destruct (dict_get "UID" r) as [x|]; [|done].
  destruct x; simpl; try done.
  intros Hx. apply String.eqb_eq in Hx as ->.
  apply String.eqb_neq. congruence.
Qed.

(** The upsert of one user's conversation does not change what the select of
    the handlers returns for another user. *)
Lemma select_latest_upsert_other (key uid other : string) (history : pyval)
    (rs : list dict) :
  key <> "chat_history" -> other <> uid ->
  select_latest
    (upsert_rows key (dict_of [("UID", PStr uid); ("chat_history", history)]) rs)
    "UID" other
  = select_latest rs "UID" other.
Proof.
  intros Hkey Hother.
  assert (Hmine : col_is "UID" (PStr other)
                    (dict_of [("UID", PStr uid); ("chat_history", history)])
                  = false).
  { unfold col_is. simpl. apply String.eqb_neq. congruence. }
  assert (Hnew : forall rs',
             select_latest
               (rs' ++ [dict_of [("UID", PStr uid); ("chat_history", history)]])
               "UID" other
             = select_latest rs' "UID" other).
  { intros rs'. unfold select_latest.
    rewrite List.filter_app. cbn [List.filter]. rewrite Hmine.
    by rewrite app_nil_r. }
  destruct (String.eqb_spec key "UID") as [->|Hne].
  - unfold upsert_rows. simpl.
    destruct (existsb (col_is "UID" (PStr uid)) rs) eqn:Hhit; [|apply Hnew].
    unfold select_latest. rewrite filter_untouched; [done|].
    intros r Hr. split; [by apply (col_is_other uid)|].
    unfold col_is, dict_update. simpl.
    rewrite dict_get_set_ne, dict_get_set_eq by done.
    simpl. apply String.eqb_neq. congruence.
  - unfold upsert_rows.
    assert (dict_get key (dict_of [("UID", PStr uid); ("chat_history", history)])
            = None) as ->.
    { simpl. apply String.eqb_neq in Hne as ->.
      by apply String.eqb_neq in Hkey as ->. }
    apply Hnew.
Qed.

(** Whatever its outcome, a POST to [/chat] by one user leaves the latest
    conversation of every other user, and every other table, as they were. *)
Theorem chat_post_leaves_other_users (env : Env) (req : request) (uid : string)
    (s : Sys) :
  authenticated env req uid ->
  primary_key env "chats" <> "chat_history" ->
  exists r s',
    chatbot env req s = (inr r, s') /\
    (forall other,
        other <> uid ->
        select_latest (rows (db s') "chats") "UID" other
        = select_latest (rows (db s) "chats") "UID" other) /\
    (forall t, t <> "chats" -> rows (db s') t = rows (db s) t).
Proof.
  intros [_ (token & Htoken & Huser)] Hkey.
  destruct (chatbot_cases env req s) as (r & s' & new & Hrun & _ & Hcases).
  exists r, s'. split; [done|].
  destruct Hcases as [(_ & _ & ->)|Hcases]; [done|].
  destruct Hcases as (token0 & uid0 & data & h & prompt & s0 & out & s1 &
                      _ & Htoken0 & Huser0 & _ & _ & _ & _ & _ & _ & Hout).
  rewrite Htoken in Htoken0. simplify_eq.
  rewrite Huser in Huser0. simplify_eq.
  destruct out as [e|response]; [by destruct Hout as [_ ->]|].
  destruct Hout as (reply & _ & Hout). simpl in Hout.
  destruct (execute_error env _) as [e|]; [by destruct Hout as [_ ->]|].
  destruct Hout as [_ ->]. split.
  - intros other Hother. rewrite rows_insert.
    by apply select_latest_upsert_other.
  - intros t Ht. unfold rows. by rewrite lookup_insert_ne.
Qed.

(** Alice posts while bob has a conversation. *)
Lemma chat_post_leaves_other_users_witness :
  exists r s',
    chatbot (sample_env 0 (post_reply "Hello")) (chat_request "Hi") bob_sys
    = (inr r, s') /\
    (forall other,
        other <> "alice" ->
        select_latest (rows (db s') "chats") "UID" other
        = select_latest (rows (db bob_sys) "chats") "UID" other) /\
    (forall t, t <> "chats" -> rows (db s') t = rows (db bob_sys) t).
Proof.
  apply (chat_post_leaves_other_users (sample_env 0 (post_reply "Hello"))
           (chat_request "Hi") "alice" bob_sys).
  - apply alice_authenticated.
  - discriminate.
Defined.

(** ** The chat call of /diet_plan *)

(** [pregnancy_diet] answers 200, or 401 or 500 with an error envelope.  It
    calls the chat endpoint only for a request that passed the token check:
    the header starts with "Bearer ", the identity provider was asked, once
    and before the chat call, about the token of the header, and it answered
    with a user object.  The body then has all four fields, and the one chat
    call carries the configured model and one user message, the prompt built
    from the fields.  A 200 answer has made that call, for a token that the
    provider resolved to a user with an id. *)
Theorem pregnancy_diet_chat_call (env : Env) (req : request) (s : Sys) :
  exists r s' new,
    pregnancy_diet env req s = (inr r, s') /\
    calls s' = calls s ++ new /\
    (status r = 200%nat \/
     ((status r = 401%nat \/ status r = 500%nat) /\
      exists msg, body r = error_body msg)) /\
    (forall p,
        CallChat p ∈ new ->
        exists token user data t w h d,
          no_valid_token (authorization req) = false /\
          token_of (authorization req) = inr token /\
          get_user env token = inr (UserResponse user) /\
          new = [CallGetUser token; CallChat p] /\
          json req = inr data /\
          py_getitem data "trimester" = inr t /\
          py_getitem data "weight" = inr w /\
          py_getitem data "health_conditions" = inr h /\
          py_getitem data "dietary_preference" = inr d /\
          p = PDict [("model", model_id env);
                     ("messages",
                      PList [message "user" (PStr (diet_prompt env t w h d))])]) /\
    (status r = 200%nat ->
     exists uid p, authenticated env req uid /\ CallChat p ∈ new).
Proof.
  unfold pregnancy_diet. run_monad.
  destruct (json req) as [e|data] eqn:Hjson; simpl; [diet_exit|].
  destruct (no_valid_token (authorization req)) eqn:Hbearer; simpl; [diet_exit|].
  destruct (token_of (authorization req)) as [e|token] eqn:Htoken; simpl;
    [diet_exit|].
  destruct (get_user env token) as [e|user_data] eqn:Huser; simpl; [diet_exit|].
  destruct user_data as [|user]; simpl; [diet_exit|].
  destruct (py_getitem data "trimester") as [e|t] eqn:Ht; simpl; [diet_exit|].
  destruct (py_getitem data "weight") as [e|w] eqn:Hw; simpl; [diet_exit|].
  destruct (py_getitem data "health_conditions") as [e|h] eqn:Hh; simpl;
    [diet_exit|].
  destruct (py_getitem data "dietary_preference") as [e|d] eqn:Hd; simpl;
    [diet_exit|].
  match goal with
  | |- context [chat env ?m ?msgs ?s0] =>
      destruct (chat env m msgs s0) as [out s1] eqn:Hchat
  end.
  pose proof (chat_frame _ _ _ _ _ _ Hchat) as [_ Hcalls]. simpl in Hcalls.
  set (P := PDict [("model", model_id env);
                   ("messages",
                    PList [message "user" (PStr (diet_prompt env t w h d))])]) in *.
  assert (Hsent : forall p, CallChat p ∈ [CallGetUser token; CallChat P] -> p = P)
    by solve_the_chat.
  assert (Hfields : forall p,
             CallChat p ∈ [CallGetUser token; CallChat P] ->
             exists token0 user0 data0 t0 w0 h0 d0,
               false = false /\
               @inr exn string token = inr token0 /\
               get_user env token0 = inr (UserResponse user0) /\
               [CallGetUser token; CallChat P] = [CallGetUser token0; CallChat p] /\
               @inr exn pyval data = inr data0 /\
               py_getitem data0 "trimester" = inr t0 /\
               py_getitem data0 "weight" = inr w0 /\
               py_getitem data0 "health_conditions" = inr h0 /\
               py_getitem data0 "dietary_preference" = inr d0 /\
               p = PDict [("model", model_id env);
                          ("messages",
                           PList [message "user"
                                    (PStr (diet_prompt env t0 w0 h0 d0))])]).
  { intros p Hp. rewrite (Hsent p Hp). by exists token, user, data, t, w, h, d. }
  assert (Hmade : CallChat P ∈ [CallGetUser token; CallChat P]).
  { apply elem_of_cons. right. apply elem_of_cons. by left. }
  destruct out as [e|response]; simpl.
  { exists (Response 500 (error_body (str_exn e))), s1,
      [CallGetUser token; CallChat P].
    split_and!; [done|by rewrite Hcalls, <- app_assoc| |done|simpl; lia].
    right. split; [auto|by eexists]. }
  destruct user as [uid|]; simpl.
  - destruct (chat_message _ _ _ _ _ _ Hchat) as [content Hcontent].
    rewrite Hcontent. simpl.
    exists (Response 200 (PDict [("diet_plan", content)])), s1,
      [CallGetUser token; CallChat P].
    split_and!; [done|by rewrite Hcalls, <- app_assoc|by left|done|].
    intros _. exists uid, P. split; [|done].
    split; [done|]. by exists token.
  - eexists _, s1, [CallGetUser token; CallChat P].
    split_and!; [done|by rewrite Hcalls, <- app_assoc| |done|simpl; lia].
    right. split; [auto|by eexists].
Qed.

(** ** The prompt of /diet_plan *)

Lemma prefix_append (p b : string) : String.prefix p (p +:+ b) = true.
Proof.
  induction p as [|c p IH]; simpl; [by destruct b|].
  by destruct (ascii_dec c c).
Qed.

Lemma is_substring_unfold (p s : string) :
  is_substring p s
  = String.prefix p s
    || match s with
       | EmptyString => false
       | String _ s' => is_substring p s'
       end.
Proof. by destruct s. Qed.

Lemma is_substring_here (p b : string) : is_substring p (p +:+ b) = true.
Proof. by rewrite is_substring_unfold, prefix_append. Qed.

Lemma is_substring_append_r (p a s : string) :
  is_substring p s = true -> is_substring p (a +:+ s) = true.
Proof.
  intros Hs. induction a as [|c a IH]; [done|].
  rewrite is_substring_unfold.
  change (String c a +:+ s) with (String c (a +:+ s)). cbv iota.
  rewrite IH. apply orb_true_r.
Qed.

(** The prompt sent for a diet plan holds the text of each of the four
    fields of the body as [str] formats it, unchanged. *)
Theorem diet_prompt_embeds_inputs (env : Env)
    (trimester weight health_conditions dietary_preference : pyval) :
  let prompt :=
    diet_prompt env trimester weight health_conditions dietary_preference in
  is_substring (py_str env trimester) prompt = true /\
  is_substring (py_str env weight) prompt = true /\
  is_substring (py_str env health_conditions) prompt = true /\
  is_substring (py_str env dietary_preference) prompt = true.
Proof.
  unfold diet_prompt. cbv zeta.
  split_and!.
  - apply is_substring_append_r, is_substring_here.
  - do 3 apply is_substring_append_r. apply is_substring_here.
  - do 5 apply is_substring_append_r. apply is_substring_here.
  - do 7 apply is_substring_append_r. apply is_substring_here.
Qed.

(** ** An identity response without a user *)

(** The identity provider answers with an object whose [user] is [None].
    [predict_fetal] checks for it and answers 401.  The other handlers only
    test the object itself: [predict_maternal], [pregnancy_diet] and
    [chatbot] end in 500 (the attribute access on [None] raises) without
    writing, [chatbot] before any store or chat call, and in [chatbot_get]
    the exception leaves the view function. *)
Theorem user_without_id (env : Env) (req : request) (s : Sys) (token : string) :
  no_valid_token (authorization req) = false ->
  token_of (authorization req) = inr token ->
  get_user env token = inr (UserResponse None) ->
  predict_fetal env req s
  = (inr (Response 401 (error_body "Invalid token")),
     logged (CallGetUser token) s) /\
  chatbot_get env req s
  = (inl (Exception "AttributeError" "'NoneType' object has no attribute 'id'"),
     logged (CallGetUser token) s) /\
  (exists r s',
      predict_maternal env req s = (inr r, s') /\
      status r = 500%nat /\ db s' = db s) /\
  (exists r s',
      pregnancy_diet env req s = (inr r, s') /\
      status r = 500%nat /\ db s' = db s) /\
  (exists r,
      (chatbot env req s = (inr r, s) \/
       chatbot env req s = (inr r, logged (CallGetUser token) s)) /\
      status r = 500%nat).
Proof.
  intros Hbearer Htoken Huser. split_and!.
  - unfold predict_fetal. run_monad. by rewrite Hbearer, Htoken; simpl; rewrite Huser.
  - unfold chatbot_get. run_monad. by rewrite Hbearer, Htoken; simpl; rewrite Huser.
  - unfold predict_maternal, execute. run_monad.
    rewrite Hbearer, Htoken. maternal_step. rewrite Huser. maternal_step.
    repeat (step_any; maternal_step);
      eexists _, _; (split; [reflexivity|]); by split.
  - unfold pregnancy_diet. run_monad.
    destruct (json req) as [e|data]; simpl;
      [eexists _, _; split; [reflexivity|]; by split|].
    rewrite Hbearer, Htoken. simpl. rewrite Huser. simpl.
    destruct (py_getitem data "trimester") as [e|t]; simpl;
      [eexists _, _; split; [reflexivity|]; by split|].
    destruct (py_getitem data "weight") as [e|w]; simpl;
      [eexists _, _; split; [reflexivity|]; by split|].
    destruct (py_getitem data "health_conditions") as [e|h]; simpl;
      [eexists _, _; split; [reflexivity|]; by split|].
    destruct (py_getitem data "dietary_preference") as [e|d]; simpl;
      [eexists _, _; split; [reflexivity|]; by split|].
    match goal with
    | |- context [chat env ?m ?msgs ?s0] =>
        destruct (chat env m msgs s0) as [[e|response] s1] eqn:Hchat
    end;
      pose proof (chat_frame _ _ _ _ _ _ Hchat) as [Hdb _]; simpl in *;
      eexists _, _; (split; [reflexivity|]); by split.
  - unfold chatbot. run_monad.
    destruct (json req) as [e|data]; simpl.
    + eexists. split; [by left|done].
    + rewrite Hbearer, Htoken. simpl. rewrite Huser. simpl.
      eexists. split; [by right|done].
Qed.

(** The five handlers against such a provider. *)
Lemma user_without_id_witness :
  predict_fetal no_user_env vitals_request empty_sys
  = (inr (Response 401 (error_body "Invalid token")),
     logged (CallGetUser "alice-token") empty_sys) /\
  chatbot_get no_user_env vitals_request empty_sys
  = (inl (Exception "AttributeError" "'NoneType' object has no attribute 'id'"),
     logged (CallGetUser "alice-token") empty_sys) /\
  (exists r s',
      predict_maternal no_user_env vitals_request empty_sys = (inr r, s') /\
      status r = 500%nat /\ db s' = db empty_sys) /\
  (exists r s',
      pregnancy_diet no_user_env vitals_request empty_sys = (inr r, s') /\
      status r = 500%nat /\ db s' = db empty_sys) /\
  (exists r,
      (chatbot no_user_env vitals_request empty_sys = (inr r, empty_sys) \/
       chatbot no_user_env vitals_request empty_sys
       = (inr r, logged (CallGetUser "alice-token") empty_sys)) /\
      status r = 500%nat).
Proof.
  apply (user_without_id no_user_env vitals_request empty_sys "alice-token");
    reflexivity.
Defined.

(** ** What POST /chat sends and answers *)

(** [chatbot] calls the chat endpoint only for an authenticated request whose
    body has a ["message"], and what it sends is the configured model with
    the user's whole loaded conversation followed by the new user message. *)
Theorem chatbot_chat_payload (env : Env) (req : request) (s : Sys) :
  exists r s' new,
    chatbot env req s = (inr r, s') /\
    calls s' = calls s ++ new /\
    (forall p,
        CallChat p ∈ new ->
        exists uid data h prompt,
          authenticated env req uid /\
          json req = inr data /\
          py_getitem data "message" = inr prompt /\
          conversation s uid = inr (PList h) /\
          p = PDict [("model", model_id env);
                     ("messages", PList (h ++ [message "user" prompt]))]).
Proof.
  destruct (chatbot_cases env req s) as (r & s' & new & Hrun & Hcalls & Hcases).
  exists r, s', new. split_and!; [done..|].
  intros p Hp.
  destruct Hcases as [(Hnone & _)|Hcases]; [by destruct (Hnone p)|].
  destruct Hcases as (token & uid & data & h & prompt & s0 & out & s1 &
                      Hbearer & Htoken & Huser & Hjson & Hconv & Hprompt &
                      _ & _ & Hsent & _).
  exists uid, data, h, prompt. split_and!; [|done..|by apply Hsent].
  split; [done|]. by exists token.
Qed.

(** Every answer of [chatbot] is a 200 with the reply under ["response"], or
    a 401 or 500 with an error envelope. *)
Theorem chatbot_answers (env : Env) (req : request) (s : Sys) :
  exists r s',
    chatbot env req s = (inr r, s') /\
    ((status r = 200%nat /\ exists reply, body r = PDict [("response", reply)])
     \/
     ((status r = 401%nat \/ status r = 500%nat) /\
      exists msg, body r = error_body msg)).
Proof.
  unfold chatbot, execute. run_monad.
  destruct (json req) as [e|data]; simpl;
    [eexists _, _; split; [reflexivity|]; right; split; [auto|by eexists]|].
  destruct (no_valid_token (authorization req)); simpl;
    [eexists _, _; split; [reflexivity|]; right; split; [auto|by eexists]|].
  destruct (token_of (authorization req)) as [e|token]; simpl;
    [eexists _, _; split; [reflexivity|]; right; split; [auto|by eexists]|].
  destruct (get_user env token) as [e|[|[uid|]]]; simpl;
    try (eexists _, _; split; [reflexivity|]; right; split; [auto|by eexists]).
  destruct (execute_error env (Select "chats" "UID" uid)); simpl;
    [eexists _, _; split; [reflexivity|]; right; split; [auto|by eexists]|].
  destruct (initial_history _) as [e|history]; simpl;
    [eexists _, _; split; [reflexivity|]; right; split; [auto|by eexists]|].
  destruct (py_getitem data "message") as [e|prompt]; simpl;
    [eexists _, _; split; [reflexivity|]; right; split; [auto|by eexists]|].
  destruct (py_append history _) as [e|history1]; simpl;
    [eexists _, _; split; [reflexivity|]; right; split; [auto|by eexists]|].
  match goal with
  | |- context [chat env ?m ?msgs ?s0] =>
      destruct (chat env m msgs s0) as [[e|response] s1] eqn:Hchat
  end; simpl;
    [eexists _, _; split; [reflexivity|]; right; split; [auto|by eexists]|].
  destruct (message_content response) as [e|content]; simpl;
    [eexists _, _; split; [reflexivity|]; right; split; [auto|by eexists]|].
  destruct (py_append history1 _) as [e|history2]; simpl;
    [eexists _, _; split; [reflexivity|]; right; split; [auto|by eexists]|].
  destruct (execute_error env _); simpl;
    [eexists _, _; split; [reflexivity|]; right; split; [auto|by eexists]|].
  eexists _, _. split; [reflexivity|]. left. split; [done|by eexists].
Qed.
